(** * Tile metadata generator: the grid adjacency and coordinate engine

    A shallow embedding of [MetadataProcessor] (元数据编辑工具V2.py): the
    identifier parser ([_extract_metadata]), the corner coordinates
    ([_generate_coordinates]), the boundary index
    ([_get_boundary_coordinates]), the adjacency resolver
    ([_process_directional_connections], [_process_diagonal_connections]),
    the validator ([_validate_data_consistency]) and the emission loop
    ([_generate_output]).

    Conventions of the embedding.
    - A Python [str] is a [string]; one [ascii] is one character.  The
      identifiers of the tiles are ASCII text.  The fixed Chinese labels
      are kept in their UTF-8 encoding; the program only compares and
      concatenates them.
    - A Python [int] is a [Z].
    - [self.metadata_data] and [self.boundary_data] are dictionaries from
      field names to lists, one entry per tile: [gmap string (list string)].
    - The boundary index is a [set] of pairs: [gset (Z * Z)].
    - A raised exception is the [Raise] case of [result]; list
      comprehensions that may raise are [traverse] in that monad.
    - The spreadsheet reader, the file-size probe and the workbook writer are
      input and output: a [DataFrame] is given by its columns, the probe is a
      function argument and the output directory is a finite map from file
      names to sheets. *)

From Stdlib Require Import ZArith String Ascii List.
From Stdlib Require Import DecimalString DecimalZ DecimalPos.
From stdpp Require Import gmap strings list fin_maps.

Local Open Scope string_scope.
Local Open Scope nat_scope.

(** ** Python strings *)

Module PyStr.

(** [s[a:b]] for constant bounds [0 <= a <= b]: the slice stops at the end
    of the string and is empty when [a] is past it. *)
Definition slice (a b : nat) (s : string) : string :=
  String.substring a (b - a) s.

Definition code (c : ascii) : nat := nat_of_ascii c.

Definition is_digit (c : ascii) : bool :=
  (48 <=? code c) && (code c <=? 57).

Definition digit_val (c : ascii) : Z := Z.of_nat (code c - 48).

(** The white space [int()] skips on ASCII text: space, \t, \n, \v, \f, \r. *)
Definition is_space (c : ascii) : bool :=
  (code c =? 32) || ((9 <=? code c) && (code c <=? 13)).

(** The white space of [str.strip()] on ASCII text: the above and the
    separators 0x1c to 0x1f. *)
Definition is_strip_space (c : ascii) : bool :=
  is_space c || ((28 <=? code c) && (code c <=? 31)).

Fixpoint lstrip_by (p : ascii → bool) (s : string) : string :=
  match s with
  | EmptyString => EmptyString
  | String c s' => if p c then lstrip_by p s' else s
  end.

Fixpoint rstrip_by (p : ascii → bool) (s : string) : string :=
  match s with
  | EmptyString => EmptyString
  | String c s' =>
      match rstrip_by p s' with
      | EmptyString => if p c then EmptyString else String c EmptyString
      | t => String c t
      end
  end.

Definition strip_by (p : ascii → bool) (s : string) : string :=
  rstrip_by p (lstrip_by p s).

(** [s.strip()] *)
Definition strip (s : string) : string := strip_by is_strip_space s.

Fixpoint map_chars (f : ascii → ascii) (s : string) : string :=
  match s with
  | EmptyString => EmptyString
  | String c s' => String (f c) (map_chars f s')
  end.

(** The digits of an [int()] literal: decimal digits, with single
    underscores allowed between two digits.  [prev] says that the previous
    character was a digit. *)
Fixpoint int_digits (acc : Z) (prev : bool) (s : string) : option Z :=
  match s with
  | EmptyString => if prev then Some acc else None
  | String c s' =>
      if is_digit c then int_digits (10 * acc + digit_val c)%Z true s'
      else if (code c =? 95) && prev then int_digits acc false s'
      else None
  end.

(** [int(s)] in base 10: surrounding white space, an optional sign, digits.
    [None] stands for the [ValueError] it raises. *)
Definition int (s : string) : option Z :=
  match strip_by is_space s with
  | String "+" t => int_digits 0 false t
  | String "-" t => Z.opp <$> int_digits 0 false t
  | t => int_digits 0 false t
  end.

(** [str(n)] for an [int]: decimal, with a minus sign for negatives. *)
Definition str (n : Z) : string := NilZero.string_of_int (Z.to_int n).

End PyStr.

(** ** Exceptions and results *)

Inductive exn : Type :=
  | ValueError (msg : string)
  | InvalidLiteral (lit : string)     (* the ValueError of int(lit) *)
  | KeyError (key : string)
  | IndexError
  | RuntimeError (msg : string) (cause : exn).  (* raise RuntimeError(msg + str(e)) from e *)

Inductive result (A : Type) : Type :=
  | Ok (a : A)
  | Raise (e : exn).
Arguments Ok {A} a.
Arguments Raise {A} e.

Definition bind {A B} (m : result A) (k : A → result B) : result B :=
  match m with
  | Ok a => k a
  | Raise e => Raise e
  end.

Notation "'let!' x ':=' m 'in' k" := (bind m (λ x, k))
  (at level 10, x name, m at level 100, k at level 200).

(** A list comprehension [[f(x) for x in l]] whose body may raise: the
    elements are evaluated in order and the first exception leaves. *)
Fixpoint traverse {A B} (f : A → result B) (l : list A) : result (list B) :=
  match l with
  | [] => Ok []
  | x :: l' => let! y := f x in let! ys := traverse f l' in Ok (y :: ys)
  end.

Definition is_ok {A} (r : result A) : bool :=
  match r with Ok _ => true | Raise _ => false end.

(** [int(s)], raising. *)
Definition py_int (s : string) : result Z :=
  match PyStr.int s with
  | Some n => Ok n
  | None => Raise (InvalidLiteral s)
  end.

(** ** The labels of the program *)

Definition LINKED : string := "已接".
Definition FREE_EDGE : string := "自由边".
Definition NONE_NAME : string := "无".
Definition DEGREE : string := "°".

(** ** Loading: [_process_excel] and [_extract_metadata] *)

(** A table read from a spreadsheet, from the name of a column to its
    cells, each cell by the text [astype(str)] gives it; and the
    dictionaries of the processor. *)
Abbreviation DataFrame := (gmap string (list string)).
Abbreviation Dict := (gmap string (list string)).

(** [d[k]] on such a dictionary. *)
Definition getitem (d : Dict) (k : string) : result (list string) :=
  match d !! k with
  | Some v => Ok v
  | None => Raise (KeyError k)
  end.

Definition _extract_metadata (df : DataFrame) : result Dict :=
  let! map_index := getitem df "MapIndex" in
  let! band_number :=
    traverse (λ s, let! b := py_int (PyStr.slice 7 9 s) in
                   Ok (PyStr.str b +:+ DEGREE))
             map_index in
  let! central_meridian :=
    traverse (λ value, let! v := py_int value in
                       Ok (PyStr.str (v * 3) +:+ DEGREE))
             (PyStr.slice 7 9 <$> map_index) in
  let! flight_times := getitem df "time" in
  Ok (<["file_name" := map_index]>
      (<["row_number" := PyStr.slice 0 4 <$> map_index]>
      (<["column_number" := PyStr.slice 7 12 <$> map_index]>
      (<["band_number" := band_number]>
      (<["central_meridian" := central_meridian]>
      (<["flight_times" := flight_times]> ∅)))))).

Definition MISSING_COLUMNS : string := "Excel文件缺少必要列: MapIndex 或 time".
Definition PROCESS_FAILED : string := "处理文件出错: ".

(** Both branches of [_process_excel] (xlrd for .xls, pandas for .xlsx)
    demand the two columns [MapIndex] and [time], keep nothing else, and
    hand the table to [_extract_metadata]; every exception leaves as a
    [RuntimeError]. *)
Definition _process_excel (df : DataFrame) : result Dict :=
  let body :=
    if bool_decide (df !! "MapIndex" = None ∨ df !! "time" = None)
    then Raise (ValueError MISSING_COLUMNS)
    else _extract_metadata df in
  match body with
  | Ok d => Ok d
  | Raise e => Raise (RuntimeError PROCESS_FAILED e)
  end.


(** ** Derivation: sizes, corner coordinates *)

Definition SIZE_MISSING : string := "数据不存在".

(** [_add_tif_sizes]: [probe] is the view of the TIFF folder, from the file
    name [name.tif] to the rendered size of the file when it exists. *)
Definition _add_tif_sizes (probe : string → option string) (md : Dict)
  : result Dict :=
  let! names := getitem md "file_name" in
  Ok (<["tif_size" :=
          (λ name, default SIZE_MISSING (probe (name +:+ ".tif"))) <$> names]> md).

(** The f-string [f"{n}.00"] *)
Definition fmt00 (n : Z) : string := PyStr.str n +:+ ".00".

Definition FILE_PREFIX : string := "文件:".

Definition _generate_coordinates (md : Dict) : result Dict :=
  let! rows := getitem md "row_number" in
  let! row := traverse py_int rows in
  let! cols := getitem md "column_number" in
  let! col := traverse py_int cols in
  let! names := getitem md "file_name" in
  Ok (<["WS_X" := (λ r, fmt00 (r * 1000)%Z) <$> row]>
      (<["WS_Y" := (λ c, fmt00 (c * 1000)%Z) <$> col]>
      (<["WN_X" := (λ r, fmt00 ((r + 1) * 1000)%Z) <$> row]>
      (<["WN_Y" := (λ c, fmt00 (c * 1000)%Z) <$> col]>
      (<["EN_X" := (λ r, fmt00 ((r + 1) * 1000)%Z) <$> row]>
      (<["EN_Y" := (λ c, fmt00 ((c + 1) * 1000)%Z) <$> col]>
      (<["ES_X" := (λ r, fmt00 (r * 1000)%Z) <$> row]>
      (<["ES_Y" := (λ c, fmt00 ((c + 1) * 1000)%Z) <$> col]>
      (<["filename" := (λ name, FILE_PREFIX +:+ name) <$> names]> md))))))))).

(** ** The boundary index and the adjacency resolver *)

Abbreviation Boundary := (gset (Z * Z)).

Definition _get_boundary_coordinates (boundary_data : Dict) : result Boundary :=
  let! rows := getitem boundary_data "row_number" in
  let! rs := traverse py_int rows in
  let! cols := getitem boundary_data "column_number" in
  let! cs := traverse py_int cols in
  Ok (list_to_set (zip rs cs)).

Definition _generate_filename (r c : Z) : string :=
  PyStr.str r +:+ ".0-" +:+ PyStr.str c +:+ ".0".

(** The comprehension [[(int(r) + dr, int(c) + dc) for r, c in zip(...)]]
    of both adjacency passes. *)
Definition target_coords (dr dc : Z) (md : Dict) : result (list (Z * Z)) :=
  let! rows := getitem md "row_number" in
  let! cols := getitem md "column_number" in
  traverse (λ rc, let! r := py_int rc.1 in
                  let! c := py_int rc.2 in
                  Ok (r + dr, c + dc)%Z)
           (zip rows cols).

Definition link_of (boundary : Boundary) (coord : Z * Z) : string :=
  if bool_decide (coord ∈ boundary) then LINKED else FREE_EDGE.

(** One element of the comprehension over [zip(target_coord, target_coord)]. *)
Definition name_of (boundary : Boundary) (p : (Z * Z) * (Z * Z)) : string :=
  let '(coord, (r, c)) := p in
  if bool_decide (coord ∈ boundary) then _generate_filename r c else NONE_NAME.

Fixpoint foldM {A B} (f : A → B → result A) (a : A) (l : list B) : result A :=
  match l with
  | [] => Ok a
  | x :: l' => let! a' := f a x in foldM f a' l'
  end.

Definition directions : list (string * (Z * Z)) :=
  [("N", (1, 0)); ("S", (-1, 0)); ("E", (0, 1)); ("W", (0, -1))]%Z.

Definition diagonals : list (string * (Z * Z)) :=
  [("WN", (1, -1)); ("EN", (1, 1)); ("WS", (-1, -1)); ("ES", (-1, 1))]%Z.

Definition directional_step (boundary : Boundary) (md : Dict)
    (d : string * (Z * Z)) : result Dict :=
  let '(direction, (dr, dc)) := d in
  let! target_coord := target_coords dr dc md in
  let md1 := <["Link_" +:+ direction := link_of boundary <$> target_coord]> md in
  Ok (<["filename_" +:+ direction :=
          name_of boundary <$> zip target_coord target_coord]> md1).

Definition _process_directional_connections (boundary : Boundary) (md : Dict)
  : result Dict :=
  foldM (directional_step boundary) md directions.

Definition diagonal_step (boundary : Boundary) (md : Dict)
    (d : string * (Z * Z)) : result Dict :=
  let '(code, (dr, dc)) := d in
  let! target_coord := target_coords dr dc md in
  Ok (<["filename_" +:+ code :=
          name_of boundary <$> zip target_coord target_coord]> md).

Definition _process_diagonal_connections (boundary : Boundary) (md : Dict)
  : result Dict :=
  foldM (diagonal_step boundary) md diagonals.

Definition _process_boundary_connections (boundary_data md : Dict)
  : result Dict :=
  let! boundary_coord := _get_boundary_coordinates boundary_data in
  let! md1 := _process_directional_connections boundary_coord md in
  _process_diagonal_connections boundary_coord md1.

(** ** The validator and the emission of the sheets *)

Definition FIELD_LENGTHS : string := "数据字段长度不一致，请检查输入数据".
Definition DUPLICATE_NAMES : string := "清洗后的文件名存在重复".

Definition _validate_data_consistency (md : Dict) : result unit :=
  let lengths : gmap string nat := length <$> md in
  if bool_decide (1 < size (list_to_set (map_to_list lengths).*2 : gset nat))
  then Raise (ValueError FIELD_LENGTHS)
  else
    let! names := getitem md "file_name" in
    if bool_decide (length names ≠ size (list_to_set names : gset string))
    then Raise (ValueError DUPLICATE_NAMES)
    else Ok ().

(** A sheet is its cells, by address; the output directory is the sheets it
    holds, by file name. *)
Abbreviation Sheet := (gmap string string).
Abbreviation OutDir := (gmap string (gmap string string)).

Definition mapping : list (string * string) :=
  [("filename", "A1"); ("file_name", "C8"); ("tif_size", "C17");
   ("WS_X", "C20"); ("WS_Y", "C21"); ("WN_X", "C22"); ("WN_Y", "C23");
   ("EN_X", "C24"); ("EN_Y", "C25"); ("ES_X", "C26"); ("ES_Y", "C27");
   ("Link_W", "C41"); ("Link_N", "C42"); ("Link_E", "C43"); ("Link_S", "C44");
   ("filename_WN", "C45"); ("filename_N", "C46"); ("filename_EN", "C47");
   ("filename_W", "C48"); ("filename_E", "C49"); ("filename_WS", "C50");
   ("filename_S", "C51"); ("filename_ES", "C52");
   ("band_number", "C37"); ("central_meridian", "C35");
   ("flight_times", "C68")].

(** The character class of the [re.sub] in [_generate_single_file]:
    backslash, slash, star, question mark, colon, double quote, the two
    angle brackets and the bar. *)
Definition is_unsafe (c : ascii) : bool :=
  bool_decide (PyStr.code c ∈ [92; 47; 42; 63; 58; 34; 60; 62; 124]).

Definition safe_name (orig_name : string) : string :=
  PyStr.strip
    (PyStr.map_chars (λ c, if is_unsafe c then "_"%char else c) orig_name).

(** [{k: v[index] for k, v in self.metadata_data.items()}]; the entry
    [original_filename] the writers add is read by no cell of [mapping]. *)
Definition current_data (md : Dict) (index : nat) : result (gmap string string) :=
  if bool_decide (map_Forall (λ _ (v : list string), index < length v) md)
  then Ok (omap (λ v : list string, v !! index) md)
  else Raise IndexError.

(** The loop of [_write_xlsx] and of [_write_xls] over [mapping]. *)
Definition write_cells (data : gmap string string) (ws : Sheet) : Sheet :=
  foldl (λ ws fc, match data !! fc.1 with
                  | Some v => <[fc.2 := v]> ws
                  | None => ws
                  end) ws mapping.

Definition UNSUPPORTED_FORMAT : string := "不支持的输出格式: ".

(** [_generate_single_file]: the template is copied to the output path,
    then the copy is filled in. *)
Definition _generate_single_file (template : Sheet) (output_format : string)
    (md : Dict) (index : nat) (orig_name : string) (out : OutDir)
  : OutDir * result unit :=
  let output_path := safe_name orig_name +:+ output_format in
  let out1 := <[output_path := template]> out in
  if bool_decide (output_format = ".xlsx" ∨ output_format = ".xls") then
    match current_data md index with
    | Ok data => (<[output_path := write_cells data template]> out1, Ok ())
    | Raise e => (out1, Raise e)
    end
  else (out1, Raise (ValueError (UNSUPPORTED_FORMAT +:+ output_format))).

Fixpoint emit (template : Sheet) (output_format : string) (md : Dict)
    (items : list (nat * string)) (out : OutDir) : OutDir * result unit :=
  match items with
  | [] => (out, Ok ())
  | (idx, orig_name) :: rest =>
      match _generate_single_file template output_format md idx orig_name out with
      | (out', Ok _) => emit template output_format md rest out'
      | (out', Raise e) => (out', Raise e)
      end
  end.

(** [_generate_output]: the validator first, then one sheet per entry of
    [enumerate(file_name)].  Between the two the program makes sure that
    the output directory exists, which changes none of its files. *)
Definition _generate_output (template : Sheet) (output_format : string)
    (md : Dict) (out : OutDir) : OutDir * result unit :=
  match _validate_data_consistency md with
  | Raise e => (out, Raise e)
  | Ok _ =>
      match getitem md "file_name" with
      | Raise e => (out, Raise e)
      | Ok names =>
          emit template output_format md (imap (λ i x, (i, x)) names) out
      end
  end.

(** ** The processor *)

Record MetadataProcessor : Type := {
  template : Sheet;
  boundary_data : Dict;
  metadata_data : Dict;
  output_format : string
}.

(** [load_data]; [suffix] is [Path(target_file).suffix.lower()]. *)
Definition load_data (tpl : Sheet) (boundary_file target_file : DataFrame)
    (suffix : string) : result MetadataProcessor :=
  let fmt := if bool_decide (suffix ∈ [".xls"; ".xlsx"]) then suffix else ".xlsx" in
  let! b := _process_excel boundary_file in
  let! m := _process_excel target_file in
  Ok {| template := tpl; boundary_data := b; metadata_data := m;
        output_format := fmt |}.

(** The three derivation steps of [generate_metadata], on the dictionary
    they update in turn. *)
Definition derive (probe : string → option string) (p : MetadataProcessor)
  : result Dict :=
  let! md1 := _add_tif_sizes probe (metadata_data p) in
  let! md2 := _generate_coordinates md1 in
  _process_boundary_connections (boundary_data p) md2.

Definition generate_metadata (probe : string → option string)
    (p : MetadataProcessor) (out : OutDir) : OutDir * result unit :=
  match derive probe p with
  | Raise e => (out, Raise e)
  | Ok md => _generate_output (template p) (output_format p) md out
  end.

(** ** Notions the statements use *)

(** The value of field [k] for the tile of index [i]. *)
Definition field (md : Dict) (k : string) (i : nat) : option string :=
  md !! k ≫= λ l, l !! i.

(** The boundary index as built from the boundary table: [load_data] keeps
    the dictionary of the table and [_process_boundary_connections] builds
    the set from it. *)
Definition boundary_index (boundary_file : DataFrame) : result Boundary :=
  let! boundary_data := _process_excel boundary_file in
  _get_boundary_coordinates boundary_data.

Definition is_two_digits (s : string) : bool :=
  match s with
  | String a (String b EmptyString) => PyStr.is_digit a && PyStr.is_digit b
  | _ => false
  end.

(** Digits, a point, two digits; [seen] says that a digit was read. *)
Fixpoint int_part_then (seen : bool) (s : string) : bool :=
  match s with
  | EmptyString => false
  | String c s' =>
      if PyStr.is_digit c then int_part_then true s'
      else (PyStr.code c =? 46) && seen && is_two_digits s'
  end.

(** A decimal numeral with exactly two fractional digits. *)
Definition two_fraction_digits (s : string) : bool :=
  match s with
  | String "-" s' => int_part_then false s'
  | _ => int_part_then false s
  end.

(** The keys [_generate_coordinates] writes. *)
Definition coordinate_keys : list string :=
  ["WS_X"; "WS_Y"; "WN_X"; "WN_Y"; "EN_X"; "EN_Y"; "ES_X"; "ES_Y"; "filename"].

(** ** Sample tables and dictionaries *)

Definition no_tifs : string → option string := λ _, None.

Definition from_ok (r : result Dict) : Dict :=
  match r with Ok d => d | Raise _ => ∅ end.

Definition table (ids times : list string) : DataFrame :=
  <["MapIndex" := ids]> (<["time" := times]> ∅).

Definition grid (rows cols : list string) : Dict :=
  <["row_number" := rows]> (<["column_number" := cols]> ∅).

Definition sample_boundary_file : DataFrame :=
  table ["0013XXX00051"; "0013XXX00051"] ["t0"; "t0"].

Definition sample_target_file : DataFrame :=
  table ["0012XXX00051"; "0012XXX00050"] ["t1"; "t2"].

Definition sample_processor : MetadataProcessor :=
  {| template := ∅;
     boundary_data := from_ok (_process_excel sample_boundary_file);
     metadata_data := from_ok (_process_excel sample_target_file);
     output_format := ".xlsx" |}.

(** Two tiles with the same identifier. *)
Definition twin_processor : MetadataProcessor :=
  {| template := ∅;
     boundary_data := from_ok (_process_excel sample_boundary_file);
     metadata_data :=
       from_ok (_process_excel (table ["0012XXX00051"; "0012XXX00051"] ["t1"; "t2"]));
     output_format := ".xlsx" |}.

(** Two tiles whose identifiers differ in one character that the writer
    replaces by an underscore. *)
Definition clash_processor : MetadataProcessor :=
  {| template := ∅;
     boundary_data := from_ok (_process_excel sample_boundary_file);
     metadata_data :=
       from_ok (_process_excel (table ["0012/XX00051"; "0012*XX00051"] ["t1"; "t2"]));
     output_format := ".xlsx" |}.

(** ** The cell addresses of the .xls writer *)

Fixpoint filter_chars (p : ascii → bool) (s : string) : string :=
  match s with
  | EmptyString => EmptyString
  | String c s' => if p c then String c (filter_chars p s') else filter_chars p s'
  end.

Fixpoint all_chars (p : ascii → bool) (s : string) : bool :=
  match s with
  | EmptyString => true
  | String c s' => p c && all_chars p s'
  end.

Definition is_lower (c : ascii) : bool :=
  (97 <=? PyStr.code c) && (PyStr.code c <=? 122).

Definition is_upper (c : ascii) : bool :=
  (65 <=? PyStr.code c) && (PyStr.code c <=? 90).

(** [str.isalpha] on an ASCII character. *)
Definition is_alpha (c : ascii) : bool := is_upper c || is_lower c.

(** [c.upper()] on an ASCII character. *)
Definition upper (c : ascii) : ascii :=
  if is_lower c then ascii_of_nat (PyStr.code c - 32) else c.

(** The loop [col_index = col_index * 26 + (ord(char.upper()) - ord('A') + 1)]. *)
Fixpoint col_value (col_index : Z) (col_letter : string) : Z :=
  match col_letter with
  | EmptyString => col_index
  | String char rest =>
      col_value (col_index * 26 + (Z.of_nat (PyStr.code (upper char)) - 65 + 1)) rest
  end.

(** [_cell_address_to_indices]: the letters of the address give the column,
    its digits the row, both from 0. *)
Definition _cell_address_to_indices (cell_address : string) : result (Z * Z) :=
  let col_letter := filter_chars is_alpha cell_address in
  let! row_num := py_int (filter_chars PyStr.is_digit cell_address) in
  let col_index := (col_value 0 col_letter - 1)%Z in
  let row_index := (row_num - 1)%Z in
  Ok (row_index, col_index).

(** The loop of [_write_xls] over [mapping], on a sheet addressed by
    (row, column). *)
Definition write_cells_xls (data : gmap string string) (ws : gmap (Z * Z) string)
  : result (gmap (Z * Z) string) :=
  foldM (λ ws fc, match data !! fc.1 with
                  | Some v => let! rc := _cell_address_to_indices fc.2 in
                              Ok (<[rc := v]> ws)
                  | None => Ok ws
                  end) ws mapping.

(** ** Further notions the statements use *)

(** Every list of the dictionary has [n] entries. *)
Definition uniform (n : nat) (md : Dict) : Prop :=
  map_Forall (λ _ (v : list string), length v = n) md.

(** The sheet [_generate_single_file] writes for the tile of index [i]. *)
Definition sheet_of (template : Sheet) (md : Dict) (i : nat) : Sheet :=
  write_cells (omap (λ v : list string, v !! i) md) template.

(** The file name [_generate_single_file] writes the sheet of a tile to. *)
Definition output_name (output_format orig_name : string) : string :=
  safe_name orig_name +:+ output_format.

(** The output directory after the sheets of [items] have been written, one
    after the other. *)
Fixpoint written (template : Sheet) (output_format : string) (md : Dict)
    (items : list (nat * string)) (out : OutDir) : OutDir :=
  match items with
  | [] => out
  | (idx, orig_name) :: rest =>
      written template output_format md rest
        (<[output_name output_format orig_name := sheet_of template md idx]> out)
  end.

(** The keys the derivation steps write, in the order they are written. *)
Definition derived_keys : list string :=
  "tif_size" :: coordinate_keys ++
  (directions ≫= λ d, ["Link_" +:+ d.1; "filename_" +:+ d.1]) ++
  ((λ d, "filename_" +:+ d.1) <$> diagonals).

(** The keys [_extract_metadata] writes. *)
Definition loaded_keys : list string :=
  ["file_name"; "row_number"; "column_number"; "band_number";
   "central_meridian"; "flight_times"].

(** The value of one letter of a column name, [ord(char.upper()) - ord('A') + 1]. *)
Definition letter_value (c : ascii) : Z :=
  (Z.of_nat (PyStr.code (upper c)) - 65 + 1)%Z.

(** The indices of a cell address that has some digit. *)
Definition indices_of (cell_address : string) : Z * Z :=
  match _cell_address_to_indices cell_address with
  | Ok rc => rc
  | Raise _ => (0, 0)%Z
  end.

(** * Properties *)

(** ** The result monad and comprehensions *)

Lemma bind_ok {A B} (m : result A) (k : A → result B) (b : B) :
  bind m k = Ok b ↔ ∃ a, m = Ok a ∧ k a = Ok b.
Proof.
  destruct m as [a|e]; simpl; split.
  - eauto.
  - by intros (? & [= <-] & ?).
  - discriminate.
  - by intros (? & [=] & _).
Qed.

Lemma getitem_ok (d : Dict) (k : string) (v : list string) :
  getitem d k = Ok v ↔ d !! k = Some v.
Proof. unfold getitem. destruct (d !! k); split; congruence. Qed.

Lemma py_int_ok (s : string) (n : Z) : py_int s = Ok n ↔ PyStr.int s = Some n.
Proof. unfold py_int. destruct (PyStr.int s); split; congruence. Qed.


Section traverse_facts.
Context {A B : Type} (f : A → result B).

Lemma traverse_Forall2 (l : list A) (ys : list B) :
  traverse f l = Ok ys ↔ Forall2 (λ x y, f x = Ok y) l ys.
Proof.
  revert ys. induction l as [|x l IH]; intros ys; simpl.
  - split.
    + intros [= <-]. constructor.
    + intros H. inversion H. reflexivity.
  - split.
    + destruct (f x) as [y|e] eqn:Hx; simpl; [|discriminate].
      destruct (traverse f l) as [zs|e] eqn:Hl; simpl; [|discriminate].
      intros [= <-]. constructor; [assumption|]. by apply IH.
    + intros H. inversion H as [|? y ? zs Hx Hl]; subst.
      rewrite Hx. simpl. apply IH in Hl. rewrite Hl. reflexivity.
Qed.

Lemma traverse_lookup (l : list A) (ys : list B) (i : nat) (x : A) :
  traverse f l = Ok ys → l !! i = Some x →
  ∃ y, f x = Ok y ∧ ys !! i = Some y.
Proof.
  rewrite traverse_Forall2. intros H Hi.
  destruct (Forall2_lookup_l _ _ _ _ _ H Hi) as (y & Hy & Hf). eauto.
Qed.

Lemma traverse_length (l : list A) (ys : list B) :
  traverse f l = Ok ys → length ys = length l.
Proof. rewrite traverse_Forall2. intros H. symmetry. eapply Forall2_length, H. Qed.


End traverse_facts.

Lemma traverse_fmap {A B C} (g : A → B) (f : B → result C) (l : list A) :
  traverse f (g <$> l) = traverse (f ∘ g) l.
Proof. induction l as [|x l IH]; csimpl; [done|]. by rewrite IH. Qed.


Lemma traverse_raise_inv {A B} (f : A → result B) (l : list A) (e : exn) :
  traverse f l = Raise e → ∃ x, x ∈ l ∧ f x = Raise e.
Proof.
  induction l as [|x l IH]; simpl; [discriminate|].
  destruct (f x) as [y|e'] eqn:Hx; simpl.
  - destruct (traverse f l) as [ys|e'] eqn:Hl; simpl; [discriminate|].
    intros [= ->]. destruct IH as (x' & Hin & Hx'); [done|].
    exists x'. split; [by right|done].
  - intros [= ->]. exists x. split; [by left|done].
Qed.


(** ** Strings and decimal numerals *)

Lemma string_length_app (s t : string) :
  String.length (s +:+ t) = String.length s + String.length t.
Proof. induction s as [|c s IH]; simpl; [done|]. by rewrite IH. Qed.

Lemma generate_filename_length (r c : Z) :
  5 ≤ String.length (_generate_filename r c).
Proof.
  unfold _generate_filename. rewrite !string_length_app. simpl. lia.
Qed.

Lemma generate_filename_not_none (r c : Z) : _generate_filename r c ≠ NONE_NAME.
Proof.
  intros H. pose proof (generate_filename_length r c) as Hl.
  rewrite H in Hl. vm_compute in Hl. lia.
Qed.

Lemma linked_not_free : LINKED ≠ FREE_EDGE.
Proof. discriminate. Qed.

Lemma substring_past (s : string) (n m : nat) :
  String.length s ≤ n → String.substring n m s = "".
Proof.
  revert n. induction s as [|c s IH]; intros n Hn.
  - by destruct n, m.
  - destruct n as [|n]; simpl in *; [lia|]. apply IH. lia.
Qed.

Lemma slice_past (a b : nat) (s : string) :
  String.length s ≤ a → PyStr.slice a b s = "".
Proof. apply substring_past. Qed.


Lemma string_of_uint_nonnil (u : Decimal.uint) :
  u ≠ Decimal.Nil → NilZero.string_of_uint u = NilEmpty.string_of_uint u.
Proof. by destruct u. Qed.

Lemma int_part_digits (u : Decimal.uint) (seen : bool) (tail : string) :
  int_part_then seen (NilEmpty.string_of_uint u +:+ tail) =
  int_part_then
    (seen || match u with Decimal.Nil => false | _ => true end) tail.
Proof.
  revert seen. induction u; intros seen; simpl;
    try (rewrite IHu; by destruct seen).
  by rewrite orb_false_r.
Qed.

Lemma uint_head_not_minus (u : Decimal.uint) (tail : string) :
  u ≠ Decimal.Nil →
  two_fraction_digits (NilEmpty.string_of_uint u +:+ tail) =
  int_part_then false (NilEmpty.string_of_uint u +:+ tail).
Proof. by destruct u. Qed.

Lemma fmt00_two_fraction_digits (n : Z) : two_fraction_digits (fmt00 n) = true.
Proof.
  unfold fmt00, PyStr.str. destruct n as [|p|p]; simpl.
  - reflexivity.
  - pose proof (Unsigned.to_uint_nonnil p) as Hp.
    rewrite string_of_uint_nonnil, uint_head_not_minus, int_part_digits by done.
    by destruct (Pos.to_uint p).
  - pose proof (Unsigned.to_uint_nonnil p) as Hp.
    rewrite string_of_uint_nonnil, int_part_digits by done.
    by destruct (Pos.to_uint p).
Qed.

Lemma int_digits_acc (u : Decimal.uint) (acc : positive) :
  PyStr.int_digits (Z.pos acc) true (NilEmpty.string_of_uint u) =
  Some (Z.pos (Pos.of_uint_acc u acc)).
Proof.
  revert acc. induction u; intros acc; [done|..];
    cbn [NilEmpty.string_of_uint PyStr.int_digits Pos.of_uint_acc];
    match goal with
    | |- context [PyStr.is_digit ?c] =>
        change (PyStr.is_digit c) with true; cbv iota;
        let v := eval vm_compute in (PyStr.digit_val c) in
        change (PyStr.digit_val c) with v
    end;
    rewrite <- IHu; f_equal; lia.
Qed.

Lemma int_digits_zero (u : Decimal.uint) (prev : bool) :
  prev = true ∨ u ≠ Decimal.Nil →
  PyStr.int_digits 0 prev (NilEmpty.string_of_uint u) =
  Some (Z.of_N (Pos.of_uint u)).
Proof.
  revert prev. induction u; intros prev Hp;
    [by destruct Hp as [->|?]|..];
    cbn [NilEmpty.string_of_uint PyStr.int_digits Pos.of_uint];
    match goal with
    | |- context [PyStr.is_digit ?c] =>
        change (PyStr.is_digit c) with true; cbv iota;
        let v := eval vm_compute in (PyStr.digit_val c) in
        change (PyStr.digit_val c) with v
    end;
    [apply IHu; by left|..];
    apply (int_digits_acc u).
Qed.

Lemma rstrip_digits (u : Decimal.uint) :
  PyStr.rstrip_by PyStr.is_space (NilEmpty.string_of_uint u) =
  NilEmpty.string_of_uint u.
Proof.
  induction u; [done|..];
    cbn [NilEmpty.string_of_uint PyStr.rstrip_by]; rewrite IHu;
    by destruct (NilEmpty.string_of_uint u).
Qed.

Lemma strip_digits (u : Decimal.uint) :
  PyStr.strip_by PyStr.is_space (NilEmpty.string_of_uint u) =
  NilEmpty.string_of_uint u.
Proof.
  unfold PyStr.strip_by.
  replace (PyStr.lstrip_by PyStr.is_space (NilEmpty.string_of_uint u))
    with (NilEmpty.string_of_uint u) by (by destruct u).
  apply rstrip_digits.
Qed.

Lemma int_of_uint (u : Decimal.uint) :
  u ≠ Decimal.Nil →
  PyStr.int (NilEmpty.string_of_uint u) = Some (Z.of_N (Pos.of_uint u)).
Proof.
  intros Hu. unfold PyStr.int. rewrite strip_digits.
  rewrite <- (int_digits_zero u false) by by right.
  by destruct u.
Qed.

Lemma int_of_minus_uint (u : Decimal.uint) :
  u ≠ Decimal.Nil →
  PyStr.int (String "-" (NilEmpty.string_of_uint u)) =
  Some (- Z.of_N (Pos.of_uint u))%Z.
Proof.
  intros Hu. unfold PyStr.int, PyStr.strip_by.
  cbn [PyStr.lstrip_by]. change (PyStr.is_space "-") with false. cbv iota.
  cbn [PyStr.rstrip_by]. rewrite rstrip_digits.
  destruct (NilEmpty.string_of_uint u) eqn:Hs.
  - by destruct u.
  - rewrite <- Hs, int_digits_zero by by right. done.
Qed.

(** [int(str(n)) == n] *)
Lemma int_str (n : Z) : PyStr.int (PyStr.str n) = Some n.
Proof.
  unfold PyStr.str. destruct n as [|p|p]; [done|..]; simpl;
    pose proof (Unsigned.to_uint_nonnil p) as Hp;
    rewrite string_of_uint_nonnil by done.
  - by rewrite int_of_uint, Unsigned.of_to.
  - by rewrite int_of_minus_uint, Unsigned.of_to.
Qed.

(** ** Dictionary keys and fields *)

Lemma link_key_inj (d d' : string) : "Link_" +:+ d = "Link_" +:+ d' → d = d'.
Proof. intros H. cbn in H. by injection H. Qed.
Lemma filename_key_inj (d d' : string) :
  "filename_" +:+ d = "filename_" +:+ d' → d = d'.
Proof. intros H. cbn in H. by injection H. Qed.
Lemma link_key_not_filename (d d' : string) : "Link_" +:+ d ≠ "filename_" +:+ d'.
Proof. discriminate. Qed.


Lemma field_insert_eq (md : Dict) (k : string) (l : list string) (i : nat) :
  field (<[k := l]> md) k i = l !! i.
Proof. unfold field. by rewrite lookup_insert_eq. Qed.

Lemma field_insert_ne (md : Dict) (k k' : string) (l : list string) (i : nat) :
  k ≠ k' → field (<[k := l]> md) k' i = field md k' i.
Proof. intros. unfold field. by rewrite lookup_insert_ne. Qed.



(** ** The adjacency loops *)

Lemma target_coords_congr (dr dc : Z) (md1 md2 : Dict) :
  md1 !! "row_number" = md2 !! "row_number" →
  md1 !! "column_number" = md2 !! "column_number" →
  target_coords dr dc md1 = target_coords dr dc md2.
Proof. intros H1 H2. unfold target_coords, getitem. by rewrite H1, H2. Qed.

Lemma target_coords_parsed (dr dc : Z) (md : Dict) rows cols rs cs :
  md !! "row_number" = Some rows → md !! "column_number" = Some cols →
  traverse py_int rows = Ok rs → traverse py_int cols = Ok cs →
  target_coords dr dc md = Ok (zip_with (λ r c, (r + dr, c + dc)%Z) rs cs).
Proof.
  intros Hr Hc Hrs Hcs. unfold target_coords, getitem. rewrite Hr, Hc. simpl.
  apply traverse_Forall2 in Hrs, Hcs. apply traverse_Forall2.
  clear Hr Hc. revert cols cs Hcs. induction Hrs as [|s r rows rs Hs _ IH]; intros cols cs Hcs.
  - constructor.
  - destruct Hcs as [|s' c cols cs Hs' Hcs]; simpl; constructor.
    + simpl. rewrite Hs, Hs'. done.
    + by apply IH.
Qed.

Lemma zip_diag_lookup {A} (t : list A) (i : nat) :
  zip t t !! i = (λ p, (p, p)) <$> t !! i.
Proof.
  revert i. induction t as [|x t IH]; intros [|i]; simpl; auto.
Qed.


Lemma names_lookup (boundary : Boundary) (t : list (Z * Z)) (i : nat) :
  (name_of boundary <$> zip t t) !! i =
  (λ p, if bool_decide (p ∈ boundary) then _generate_filename p.1 p.2
        else NONE_NAME) <$> t !! i.
Proof.
  rewrite list_lookup_fmap, zip_diag_lookup.
  destruct (t !! i) as [[r c]|]; simpl; done.
Qed.

Lemma directional_step_ok boundary md d dr dc md' :
  directional_step boundary md (d, (dr, dc)) = Ok md' ↔
  ∃ t, target_coords dr dc md = Ok t ∧
       md' = <["filename_" +:+ d := name_of boundary <$> zip t t]>
               (<["Link_" +:+ d := link_of boundary <$> t]> md).
Proof.
  unfold directional_step. rewrite bind_ok. split.
  - intros (t & Ht & [= <-]). eauto.
  - intros (t & Ht & ->). eauto.
Qed.

Lemma directional_loop boundary (ds : list (string * (Z * Z))) (md md' : Dict) :
  foldM (directional_step boundary) md ds = Ok md' →
  NoDup ds.*1 →
  (∀ k, (∀ d, d ∈ ds.*1 → k ≠ "Link_" +:+ d ∧ k ≠ "filename_" +:+ d) →
        md' !! k = md !! k) ∧
  (∀ d dr dc, (d, (dr, dc)) ∈ ds →
     ∃ t, target_coords dr dc md = Ok t ∧
          md' !! ("Link_" +:+ d) = Some (link_of boundary <$> t) ∧
          md' !! ("filename_" +:+ d) = Some (name_of boundary <$> zip t t)).
Proof.
  revert md. induction ds as [|[d0 [dr0 dc0]] ds IH]; intros md; simpl.
  - intros [= <-] _. split; [done|]. intros ??? Hin. by apply elem_of_nil in Hin.
  - rewrite bind_ok. intros (md1 & Hstep & Hrest) Hnd.
    apply NoDup_cons in Hnd as [Hd0 Hnd].
    apply directional_step_ok in Hstep as (t0 & Ht0 & ->).
    destruct (IH _ Hrest Hnd) as [Hframe Hdirs]. split.
    + intros k Hk. rewrite Hframe.
      * destruct (Hk d0) as [? ?]; [left|]. by rewrite !lookup_insert_ne.
      * intros d Hd. apply Hk. by right.
    + intros d dr dc Hin. apply elem_of_cons in Hin as [[= -> -> ->]|Hin].
      * exists t0. split; [done|].
        rewrite !Hframe.
        -- rewrite lookup_insert_eq.
           rewrite lookup_insert_ne by apply not_eq_sym, link_key_not_filename.
           by rewrite lookup_insert_eq.
        -- intros d Hd. split; [apply not_eq_sym, link_key_not_filename|].
           intros Heq%filename_key_inj. by subst.
        -- intros d Hd. split; [|apply link_key_not_filename].
           intros Heq%link_key_inj. by subst.
      * destruct (Hdirs _ _ _ Hin) as (t & Ht & Hl & Hf). exists t.
        split; [|done]. rewrite <- Ht. symmetry.
        apply target_coords_congr; by rewrite !lookup_insert_ne.
Qed.

Lemma directional_total boundary (ds : list (string * (Z * Z))) (md : Dict) :
  (∀ d dr dc, (d, (dr, dc)) ∈ ds → is_ok (target_coords dr dc md) = true) →
  ∃ md', foldM (directional_step boundary) md ds = Ok md'.
Proof.
  revert md. induction ds as [|[d0 [dr0 dc0]] ds IH]; intros md Hok; simpl.
  - eauto.
  - destruct (target_coords dr0 dc0 md) as [t0|e] eqn:Ht0.
    2:{ specialize (Hok d0 dr0 dc0). rewrite Ht0 in Hok. discriminate Hok. left. }
    simpl. apply IH. intros d dr dc Hin.
    erewrite target_coords_congr; [apply (Hok d dr dc); by right|..];
      by rewrite !lookup_insert_ne.
Qed.

Lemma directions_NoDup : NoDup directions.*1.
Proof. apply (bool_decide_unpack _). by vm_compute. Qed.

Lemma diagonals_NoDup : NoDup diagonals.*1.
Proof. apply (bool_decide_unpack _). by vm_compute. Qed.

Lemma targets_lookup (dr dc : Z) (rs cs : list Z) (i : nat) (r c : Z) :
  rs !! i = Some r → cs !! i = Some c →
  zip_with (λ r c, (r + dr, c + dc)%Z) rs cs !! i = Some (r + dr, c + dc)%Z.
Proof. intros Hr Hc. rewrite lookup_zip_with, Hr. simpl. by rewrite Hc. Qed.


Lemma target_coords_lookup (dr dc : Z) (md : Dict) (t : list (Z * Z))
    (rows cols : list string) (i : nat) (rs cs : string) (r c : Z) :
  target_coords dr dc md = Ok t →
  md !! "row_number" = Some rows → md !! "column_number" = Some cols →
  rows !! i = Some rs → cols !! i = Some cs →
  PyStr.int rs = Some r → PyStr.int cs = Some c →
  t !! i = Some (r + dr, c + dc)%Z.
Proof.
  unfold target_coords, getitem. intros Ht Hrows Hcols Hi Hj Hr Hc.
  rewrite Hrows, Hcols in Ht. simpl in Ht.
  assert (Hz : zip rows cols !! i = Some (rs, cs)).
  { rewrite lookup_zip_with, Hi. simpl. by rewrite Hj. }
  destruct (traverse_lookup _ _ _ _ _ Ht Hz) as (y & Hy & Hti).
  simpl in Hy. unfold py_int in Hy. rewrite Hr, Hc in Hy. simpl in Hy.
  by injection Hy as <-.
Qed.

Lemma diagonal_step_ok boundary md d dr dc md' :
  diagonal_step boundary md (d, (dr, dc)) = Ok md' ↔
  ∃ t, target_coords dr dc md = Ok t ∧
       md' = <["filename_" +:+ d := name_of boundary <$> zip t t]> md.
Proof.
  unfold diagonal_step. rewrite bind_ok. split.
  - intros (t & Ht & [= <-]). eauto.
  - intros (t & Ht & ->). eauto.
Qed.

Lemma diagonal_loop boundary (ds : list (string * (Z * Z))) (md md' : Dict) :
  foldM (diagonal_step boundary) md ds = Ok md' →
  NoDup ds.*1 →
  (∀ k, (∀ d, d ∈ ds.*1 → k ≠ "filename_" +:+ d) → md' !! k = md !! k) ∧
  (∀ d dr dc, (d, (dr, dc)) ∈ ds →
     ∃ t, target_coords dr dc md = Ok t ∧
          md' !! ("filename_" +:+ d) = Some (name_of boundary <$> zip t t)).
Proof.
  revert md. induction ds as [|[d0 [dr0 dc0]] ds IH]; intros md; simpl.
  - intros [= <-] _. split; [done|]. intros ??? Hin. by apply elem_of_nil in Hin.
  - rewrite bind_ok. intros (md1 & Hstep & Hrest) Hnd.
    apply NoDup_cons in Hnd as [Hd0 Hnd].
    apply diagonal_step_ok in Hstep as (t0 & Ht0 & ->).
    destruct (IH _ Hrest Hnd) as [Hframe Hdirs]. split.
    + intros k Hk. rewrite Hframe.
      * rewrite lookup_insert_ne; [done|]. apply not_eq_sym, Hk. by left.
      * intros d Hd. apply Hk. by right.
    + intros d dr dc Hin. apply elem_of_cons in Hin as [[= -> -> ->]|Hin].
      * exists t0. split; [done|]. rewrite Hframe.
        -- by rewrite lookup_insert_eq.
        -- intros d Hd Heq%filename_key_inj. by subst.
      * destruct (Hdirs _ _ _ Hin) as (t & Ht & Hf). exists t.
        split; [|done]. rewrite <- Ht. symmetry.
        apply target_coords_congr; by rewrite lookup_insert_ne.
Qed.



Lemma direction_offset (d : string) :
  d ∈ ["N"; "S"; "E"; "W"] → ∃ dr dc, (d, (dr, dc)) ∈ directions.
Proof.
  rewrite !elem_of_cons, elem_of_nil. unfold directions.
  intros [->|[->|[->|[->|[]]]]]; eexists _, _.
  - apply list_elem_of_here.
  - do 1 apply list_elem_of_further. apply list_elem_of_here.
  - do 2 apply list_elem_of_further. apply list_elem_of_here.
  - do 3 apply list_elem_of_further. apply list_elem_of_here.
Qed.



(** ** What each step of the pipeline produces *)

Lemma extract_metadata_ok (df : DataFrame) (md : Dict) :
  _extract_metadata df = Ok md →
  ∃ ids bands meridians times,
    df !! "MapIndex" = Some ids ∧ df !! "time" = Some times ∧
    traverse (λ s, let! b := py_int (PyStr.slice 7 9 s) in
                   Ok (PyStr.str b +:+ DEGREE)) ids = Ok bands ∧
    traverse (λ value, let! v := py_int value in
                       Ok (PyStr.str (v * 3) +:+ DEGREE))
             (PyStr.slice 7 9 <$> ids) = Ok meridians ∧
    md = <["file_name" := ids]>
         (<["row_number" := PyStr.slice 0 4 <$> ids]>
         (<["column_number" := PyStr.slice 7 12 <$> ids]>
         (<["band_number" := bands]>
         (<["central_meridian" := meridians]>
         (<["flight_times" := times]> ∅))))).
Proof.
  unfold _extract_metadata. rewrite bind_ok. intros (ids & Hids%getitem_ok & H).
  apply bind_ok in H as (bands & Hb & H).
  apply bind_ok in H as (mer & Hm & H).
  apply bind_ok in H as (times & Ht%getitem_ok & [= <-]).
  by exists ids, bands, mer, times.
Qed.

Lemma process_excel_ok (df : DataFrame) (md : Dict) :
  _process_excel df = Ok md ↔ _extract_metadata df = Ok md.
Proof.
  unfold _process_excel. case_bool_decide as Hcols.
  - split; [discriminate|]. intros H.
    apply extract_metadata_ok in H as (?&?&?&?& H1 & H2 & _).
    destruct Hcols; congruence.
  - destruct (_extract_metadata df); split; congruence.
Qed.

Lemma add_tif_sizes_ok probe (md md' : Dict) :
  _add_tif_sizes probe md = Ok md' →
  ∃ sizes, md' = <["tif_size" := sizes]> md.
Proof.
  unfold _add_tif_sizes. rewrite bind_ok. intros (names & _ & [= <-]). eauto.
Qed.

Lemma generate_coordinates_frame (md md' : Dict) (k : string) :
  _generate_coordinates md = Ok md' → k ∉ coordinate_keys → md' !! k = md !! k.
Proof.
  unfold _generate_coordinates. rewrite bind_ok. intros (rows & _ & H) Hk.
  apply bind_ok in H as (row & _ & H).
  apply bind_ok in H as (cols & _ & H).
  apply bind_ok in H as (col & _ & H).
  apply bind_ok in H as (names & _ & [= <-]).
  unfold coordinate_keys in Hk. rewrite !not_elem_of_cons in Hk.
  destruct Hk as (?&?&?&?&?&?&?&?&?&_).
  by rewrite !lookup_insert_ne.
Qed.

Lemma load_data_ok tpl bdf tdf suffix p :
  load_data tpl bdf tdf suffix = Ok p →
  _extract_metadata bdf = Ok (boundary_data p) ∧
  _extract_metadata tdf = Ok (metadata_data p).
Proof.
  unfold load_data. rewrite bind_ok. intros (b & Hb%process_excel_ok & H).
  apply bind_ok in H as (m & Hm%process_excel_ok & [= <-]). done.
Qed.

(** Case analysis on the membership of a key or a direction in one of the
    fixed tables. *)
Ltac key_cases H :=
  unfold directions, diagonals, coordinate_keys in H; cbn in H;
  rewrite !elem_of_cons, elem_of_nil in H;
  repeat (destruct H as [H|H]); [..|destruct H].


Lemma extract_metadata_parsed (df : DataFrame) (ids times : list string)
    (bs : list Z) :
  df !! "MapIndex" = Some ids →
  df !! "time" = Some times →
  traverse (λ s, py_int (PyStr.slice 7 9 s)) ids = Ok bs →
  _extract_metadata df =
  Ok (<["file_name" := ids]>
      (<["row_number" := PyStr.slice 0 4 <$> ids]>
      (<["column_number" := PyStr.slice 7 12 <$> ids]>
      (<["band_number" := (λ b, PyStr.str b +:+ DEGREE) <$> bs]>
      (<["central_meridian" := (λ b, PyStr.str (b * 3) +:+ DEGREE) <$> bs]>
      (<["flight_times" := times]> ∅)))))).
Proof.
  intros Hids Htimes Hbs.
  unfold _extract_metadata, getitem. rewrite Hids, Htimes. simpl.
  apply traverse_Forall2 in Hbs. clear Hids.
  assert (Hband : traverse (λ s, let! b := py_int (PyStr.slice 7 9 s) in
                                 Ok (PyStr.str b +:+ DEGREE)) ids
                  = Ok ((λ b, PyStr.str b +:+ DEGREE) <$> bs)).
  { apply traverse_Forall2.
    induction Hbs as [|s b ids bs Hs _ IH]; csimpl; constructor; try done.
    by rewrite Hs. }
  assert (Hmer : traverse (λ value, let! v := py_int value in
                                    Ok (PyStr.str (v * 3) +:+ DEGREE))
                          (PyStr.slice 7 9 <$> ids)
                 = Ok ((λ b, PyStr.str (b * 3) +:+ DEGREE) <$> bs)).
  { rewrite traverse_fmap. apply traverse_Forall2. clear Hband.
    induction Hbs as [|s b ids bs Hs _ IH]; csimpl; constructor; try done.
    by rewrite Hs. }
  by rewrite Hband, Hmer.
Qed.

(** ** The identifier parser *)

(** C7.  When the characters [7,9) of every identifier of the table read as
    an integer, [_extract_metadata] succeeds, and for every tile the band is
    the integer value [int(s[7:9])], rendered with the degree sign, the
    central meridian is that band times 3, rendered likewise, the row field
    is the characters [0,4) and the column field the characters [7,12). *)
Theorem identifier_parser_spec (df : DataFrame) (ids times : list string)
    (bs : list Z) :
  df !! "MapIndex" = Some ids →
  df !! "time" = Some times →
  traverse (λ s, py_int (PyStr.slice 7 9 s)) ids = Ok bs →
  ∃ md, _extract_metadata df = Ok md ∧
    ∀ i s, ids !! i = Some s →
      ∃ band,
        PyStr.int (PyStr.slice 7 9 s) = Some band ∧
        field md "band_number" i = Some (PyStr.str band +:+ DEGREE) ∧
        PyStr.int (PyStr.str band) = Some band ∧
        field md "central_meridian" i = Some (PyStr.str (band * 3) +:+ DEGREE) ∧
        field md "row_number" i = Some (PyStr.slice 0 4 s) ∧
        field md "column_number" i = Some (PyStr.slice 7 12 s).
Proof.
  intros Hids Htimes Hbs.
  rewrite (extract_metadata_parsed df ids times bs Hids Htimes Hbs).
  eexists. split; [reflexivity|].
  intros i s Hi. apply traverse_Forall2 in Hbs.
  destruct (Forall2_lookup_l _ _ _ _ _ Hbs Hi) as (band & Hb & Hs).
  exists band. split; [by apply py_int_ok|].
  repeat split; try apply int_str;
    rewrite ?field_insert_ne by done; rewrite field_insert_eq;
    by rewrite list_lookup_fmap, ?Hb, ?Hi.
Qed.

Lemma identifier_parser_spec_witness :
  ∃ md, _extract_metadata (table ["0012XXX51034"] ["t1"]) = Ok md ∧
    ∀ i s, ["0012XXX51034"] !! i = Some s →
      ∃ band,
        PyStr.int (PyStr.slice 7 9 s) = Some band ∧
        field md "band_number" i = Some (PyStr.str band +:+ DEGREE) ∧
        PyStr.int (PyStr.str band) = Some band ∧
        field md "central_meridian" i = Some (PyStr.str (band * 3) +:+ DEGREE) ∧
        field md "row_number" i = Some (PyStr.slice 0 4 s) ∧
        field md "column_number" i = Some (PyStr.slice 7 12 s).
Proof.
  apply (identifier_parser_spec (table ["0012XXX51034"] ["t1"])
           ["0012XXX51034"] ["t1"] [51%Z]); reflexivity.
Defined.

(** The example of the specification: "51" at [7,9) gives band 51 and
    meridian 153. *)
Example band_51_meridian_153 :
  let md := from_ok (_extract_metadata (table ["0012XXX51034"] ["t1"])) in
  field md "band_number" 0 = Some ("51" +:+ DEGREE) ∧
  field md "central_meridian" 0 = Some ("153" +:+ DEGREE) ∧
  field md "row_number" 0 = Some "0012" ∧
  field md "column_number" 0 = Some "51034".
Proof. repeat split; reflexivity. Qed.

(** C5, counterexample.  An identifier of nine characters, shorter than
    the offset 12 the parser reads up to, is not rejected: the table loads,
    and the column field is the two characters the slice [7,12) finds. *)
Lemma short_identifier_accepted :
  String.length "0012XXX51" < 12 ∧
  ∃ md, _process_excel (table ["0012XXX51"] ["t1"]) = Ok md ∧
        field md "column_number" 0 = Some "51" ∧
        field md "band_number" 0 = Some ("51" +:+ DEGREE).
Proof.
  split; [simpl; lia|]. eexists. split; [reflexivity|]. split; reflexivity.
Qed.

(** C5, as amended.  An identifier shorter than 8 characters leaves the
    slice [7,9) empty, [int] raises on it, and the exception leaves
    [_process_excel] as a [RuntimeError] for the whole table: no tile of the
    table is loaded and [load_data] fails. *)
Theorem short_identifier_aborts_batch (df : DataFrame) (ids : list string)
    (s : string) :
  df !! "MapIndex" = Some ids →
  s ∈ ids →
  String.length s < 8 →
  (∃ e, _process_excel df = Raise (RuntimeError PROCESS_FAILED e) ∧
        (e = ValueError MISSING_COLUMNS ∨ ∃ lit, e = InvalidLiteral lit)) ∧
  ∀ tpl boundary_file suffix,
    is_ok (load_data tpl boundary_file df suffix) = false.
Proof.
  intros Hids Hs Hlen.
  assert (Hraise : ∃ e, _process_excel df = Raise (RuntimeError PROCESS_FAILED e) ∧
            (e = ValueError MISSING_COLUMNS ∨ ∃ lit, e = InvalidLiteral lit)).
  { unfold _process_excel. case_bool_decide as Hcols; [eauto|].
    unfold _extract_metadata, getitem. rewrite Hids. simpl.
    destruct (traverse _ ids) as [bands|e] eqn:Hb; simpl.
    - apply list_elem_of_lookup in Hs as [i Hi].
      destruct (traverse_lookup _ _ _ _ _ Hb Hi) as (y & Hy & _).
      rewrite slice_past in Hy by lia. discriminate Hy.
    - eexists. split; [reflexivity|]. right.
      apply traverse_raise_inv in Hb as (x & _ & Hx).
      unfold py_int in Hx. destruct (PyStr.int _); [discriminate|].
      injection Hx as <-. eauto. }
  split; [exact Hraise|].
  intros tpl boundary_file suffix. unfold load_data.
  destruct (_process_excel boundary_file); simpl; [|done].
  by destruct Hraise as (e & -> & _).
Qed.

Lemma short_identifier_aborts_batch_witness :
  (∃ e, _process_excel (table ["0012XXX51034"; "0013XXX"] ["t1"; "t2"])
        = Raise (RuntimeError PROCESS_FAILED e) ∧
        (e = ValueError MISSING_COLUMNS ∨ ∃ lit, e = InvalidLiteral lit)) ∧
  ∀ tpl boundary_file suffix,
    is_ok (load_data tpl boundary_file
             (table ["0012XXX51034"; "0013XXX"] ["t1"; "t2"]) suffix) = false.
Proof.
  apply (short_identifier_aborts_batch
           (table ["0012XXX51034"; "0013XXX"] ["t1"; "t2"])
           ["0012XXX51034"; "0013XXX"] "0013XXX").
  - reflexivity.
  - apply list_elem_of_further, list_elem_of_here.
  - simpl. lia.
Defined.

(** ** The corner coordinates *)

(** C2.  When the row and column fields of every tile read as integers,
    [_generate_coordinates] succeeds, and for the tile of row [r] and column
    [c] the corners are SW = (r*1000, c*1000), NW = ((r+1)*1000, c*1000),
    NE = ((r+1)*1000, (c+1)*1000) and SE = (r*1000, (c+1)*1000), each axis
    value being the decimal numeral of the integer followed by ".00", a
    numeral with exactly two fractional digits. *)
Theorem corner_coordinates_spec (md : Dict) (rows cols names : list string)
    (rs cs : list Z) :
  md !! "row_number" = Some rows →
  md !! "column_number" = Some cols →
  md !! "file_name" = Some names →
  traverse py_int rows = Ok rs →
  traverse py_int cols = Ok cs →
  ∃ md', _generate_coordinates md = Ok md' ∧
    ∀ i r c, rs !! i = Some r → cs !! i = Some c →
      (field md' "WS_X" i = Some (PyStr.str (r * 1000) +:+ ".00") ∧
       field md' "WS_Y" i = Some (PyStr.str (c * 1000) +:+ ".00") ∧
       field md' "WN_X" i = Some (PyStr.str ((r + 1) * 1000) +:+ ".00") ∧
       field md' "WN_Y" i = Some (PyStr.str (c * 1000) +:+ ".00") ∧
       field md' "EN_X" i = Some (PyStr.str ((r + 1) * 1000) +:+ ".00") ∧
       field md' "EN_Y" i = Some (PyStr.str ((c + 1) * 1000) +:+ ".00") ∧
       field md' "ES_X" i = Some (PyStr.str (r * 1000) +:+ ".00") ∧
       field md' "ES_Y" i = Some (PyStr.str ((c + 1) * 1000) +:+ ".00"))%Z ∧
      ∀ k v,
        k ∈ ["WS_X"; "WS_Y"; "WN_X"; "WN_Y"; "EN_X"; "EN_Y"; "ES_X"; "ES_Y"] →
        field md' k i = Some v → two_fraction_digits v = true.
Proof.
  intros Hrows Hcols Hnames Hrs Hcs.
  unfold _generate_coordinates, getitem.
  rewrite Hrows, Hcols, Hnames. simpl. rewrite Hrs, Hcs. simpl.
  eexists. split; [reflexivity|].
  intros i r c Hr Hc. split.
  - repeat split;
      rewrite ?field_insert_ne by done; rewrite field_insert_eq;
      by rewrite list_lookup_fmap, ?Hr, ?Hc.
  - intros k v Hk. key_cases Hk; subst k;
      rewrite ?field_insert_ne by done; rewrite field_insert_eq;
      rewrite list_lookup_fmap, ?Hr, ?Hc; intros [= <-];
      apply fmt00_two_fraction_digits.
Qed.

Lemma corner_coordinates_spec_witness :
  ∃ md', _generate_coordinates
           (<["file_name" := ["0012XXX00034"]]> (grid ["0012"] ["00034"])) = Ok md' ∧
    field md' "WS_X" 0 = Some "12000.00" ∧ field md' "WS_Y" 0 = Some "34000.00" ∧
    field md' "WN_X" 0 = Some "13000.00" ∧ field md' "WN_Y" 0 = Some "34000.00" ∧
    field md' "EN_X" 0 = Some "13000.00" ∧ field md' "EN_Y" 0 = Some "35000.00" ∧
    field md' "ES_X" 0 = Some "12000.00" ∧ field md' "ES_Y" 0 = Some "35000.00".
Proof.
  destruct (corner_coordinates_spec
              (<["file_name" := ["0012XXX00034"]]> (grid ["0012"] ["00034"]))
              ["0012"] ["00034"] ["0012XXX00034"] [12%Z] [34%Z])
    as (md' & Hmd' & Hspec); [reflexivity..|].
  exists md'. split; [exact Hmd'|].
  apply (Hspec 0 12%Z 34%Z); reflexivity.
Defined.

(** ** The adjacency resolver *)

(** C1.  When the row and column fields of every tile read as integers,
    [_process_directional_connections] succeeds, and for every tile at
    (r, c) and every cardinal direction of the table N:(+1,0), S:(-1,0),
    E:(0,+1), W:(0,-1) the target is (r+dr, c+dc): when the target is in the
    boundary set the link status is "已接" and the neighbour file name is
    "{row}.0-{column}.0" of the target; when it is not, the link status is
    "自由边" and the name is "无". *)
Theorem directional_connections_spec (boundary : Boundary) (md : Dict)
    (rows cols : list string) (rs cs : list Z) :
  md !! "row_number" = Some rows →
  md !! "column_number" = Some cols →
  traverse py_int rows = Ok rs →
  traverse py_int cols = Ok cs →
  ∃ md', _process_directional_connections boundary md = Ok md' ∧
    ∀ d dr dc,
      (d, (dr, dc)) ∈
        [("N", (1, 0)); ("S", (-1, 0)); ("E", (0, 1)); ("W", (0, -1))]%Z →
      ∀ i r c, rs !! i = Some r → cs !! i = Some c →
        let target := (r + dr, c + dc)%Z in
        (target ∈ boundary →
           field md' ("Link_" +:+ d) i = Some LINKED ∧
           field md' ("filename_" +:+ d) i =
             Some (PyStr.str target.1 +:+ ".0-" +:+ PyStr.str target.2 +:+ ".0")) ∧
        (target ∉ boundary →
           field md' ("Link_" +:+ d) i = Some FREE_EDGE ∧
           field md' ("filename_" +:+ d) i = Some NONE_NAME).
Proof.
  intros Hrows Hcols Hrs Hcs.
  assert (Ht : ∀ dr dc, target_coords dr dc md =
                 Ok (zip_with (λ r c, (r + dr, c + dc)%Z) rs cs))
    by (intros; by eapply target_coords_parsed).
  destruct (directional_total boundary directions md) as [md' Hmd'].
  { intros d dr dc _. by rewrite Ht. }
  exists md'. split; [exact Hmd'|].
  intros d dr dc Hin i r c Hr Hc target.
  destruct (directional_loop _ _ _ _ Hmd' directions_NoDup) as [_ Hdirs].
  destruct (Hdirs d dr dc Hin) as (t & Htd & Hl & Hf).
  rewrite Ht in Htd. injection Htd as <-.
  unfold field. rewrite Hl, Hf. simpl.
  rewrite names_lookup, list_lookup_fmap,
    (targets_lookup dr dc rs cs i r c Hr Hc).
  simpl. unfold link_of, _generate_filename. fold target.
  split; intros Hmem.
  - by rewrite bool_decide_true.
  - by rewrite bool_decide_false.
Qed.

Lemma directional_connections_spec_witness :
  ∃ md', _process_directional_connections {[ (13, 51)%Z ]}
           (grid ["0012"; "0013"] ["00051"; "00051"]) = Ok md' ∧
    field md' "Link_N" 0 = Some LINKED ∧
    field md' "filename_N" 0 = Some "13.0-51.0" ∧
    field md' "Link_S" 1 = Some FREE_EDGE ∧
    field md' "filename_S" 1 = Some NONE_NAME.
Proof.
  destruct (directional_connections_spec {[ (13, 51)%Z ]}
              (grid ["0012"; "0013"] ["00051"; "00051"])
              ["0012"; "0013"] ["00051"; "00051"] [12%Z; 13%Z] [51%Z; 51%Z])
    as (md' & Hmd' & Hspec); [reflexivity..|].
  exists md'. split; [exact Hmd'|].
  destruct (Hspec "N" 1%Z 0%Z (list_elem_of_here _ _) 0 12%Z 51%Z)
    as [HN _]; [reflexivity..|].
  destruct (Hspec "S" (-1)%Z 0%Z
              (list_elem_of_further _ _ _ (list_elem_of_here _ _))
              1 13%Z 51%Z) as [_ HS]; [reflexivity..|].
  destruct HN as [HN1 HN2]; [by apply elem_of_singleton|].
  destruct HS as [HS1 HS2].
  { intros Hmem%elem_of_singleton. discriminate Hmem. }
  repeat split; assumption.
Defined.

(** C10.  After [_process_directional_connections], for every cardinal
    direction the link-status list and the file-name list have an entry for
    the same tiles, and for every tile the status is "已接" exactly when the
    file name is not "无". *)
Theorem link_status_agrees_with_filename (boundary : Boundary) (md md' : Dict)
    (d : string) :
  _process_directional_connections boundary md = Ok md' →
  d ∈ ["N"; "S"; "E"; "W"] →
  ∀ i,
    (is_Some (field md' ("Link_" +:+ d) i) ↔
     is_Some (field md' ("filename_" +:+ d) i)) ∧
    ∀ l f,
      field md' ("Link_" +:+ d) i = Some l →
      field md' ("filename_" +:+ d) i = Some f →
      (l = LINKED ↔ f ≠ NONE_NAME).
Proof.
  intros Hmd' Hd i.
  destruct (direction_offset d Hd) as (dr & dc & Hin).
  destruct (directional_loop _ _ _ _ Hmd' directions_NoDup) as [_ Hdirs].
  destruct (Hdirs d dr dc Hin) as (t & _ & Hl & Hf).
  unfold field. rewrite Hl, Hf. simpl.
  rewrite names_lookup, list_lookup_fmap.
  destruct (t !! i) as [p|]; simpl.
  - split; [split; eauto|].
    intros l f [= <-] [= <-]. unfold link_of.
    destruct (bool_decide (p ∈ boundary)).
    + split; [intros _; apply generate_filename_not_none|done].
    + split; [intros H; by destruct linked_not_free|done].
  - split; [|discriminate]. split; intros [? [=]].
Qed.

Lemma link_status_agrees_with_filename_witness :
  let md' := from_ok (_process_directional_connections {[ (13, 51)%Z ]}
                        (grid ["0012"; "0013"] ["00051"; "00051"])) in
  (is_Some (field md' "Link_N" 0) ↔ is_Some (field md' "filename_N" 0)) ∧
  (LINKED = LINKED ↔ "13.0-51.0" ≠ NONE_NAME) ∧
  (FREE_EDGE = LINKED ↔ NONE_NAME ≠ NONE_NAME).
Proof.
  intros md'.
  assert (Hspec := link_status_agrees_with_filename {[ (13, 51)%Z ]}
                     (grid ["0012"; "0013"] ["00051"; "00051"]) md' "N"
                     eq_refl (list_elem_of_here _ _)).
  destruct (Hspec 0) as [Hboth Hlinked]. destruct (Hspec 1) as [_ Hfree].
  split; [exact Hboth|]. split.
  - apply Hlinked; reflexivity.
  - apply Hfree; reflexivity.
Defined.

(** C3.  For a processor loaded from two tables and a successful
    derivation, every diagonal direction of the table WN:(+1,-1),
    EN:(+1,+1), WS:(-1,-1), ES:(-1,+1) has a file-name field and no
    link-status field: the name of the tile at (r, c) is
    "{row}.0-{column}.0" of the target (r+dr, c+dc) when the target is in
    the boundary set and "无" otherwise; each of the four cardinal
    directions has both a link-status field and a file-name field. *)
Theorem diagonal_fields_spec (probe : string → option string) (tpl : Sheet)
    (boundary_file target_file : DataFrame) (suffix : string)
    (p : MetadataProcessor) (ids : list string) (boundary : Boundary)
    (md' : Dict) :
  load_data tpl boundary_file target_file suffix = Ok p →
  target_file !! "MapIndex" = Some ids →
  _get_boundary_coordinates (boundary_data p) = Ok boundary →
  derive probe p = Ok md' →
  (∀ code dr dc,
     (code, (dr, dc)) ∈
       [("WN", (1, -1)); ("EN", (1, 1)); ("WS", (-1, -1)); ("ES", (-1, 1))]%Z →
     md' !! ("Link_" +:+ code) = None ∧
     is_Some (md' !! ("filename_" +:+ code)) ∧
     ∀ i s r c,
       ids !! i = Some s →
       PyStr.int (PyStr.slice 0 4 s) = Some r →
       PyStr.int (PyStr.slice 7 12 s) = Some c →
       let target := (r + dr, c + dc)%Z in
       (target ∈ boundary →
          field md' ("filename_" +:+ code) i =
            Some (PyStr.str target.1 +:+ ".0-" +:+ PyStr.str target.2 +:+ ".0")) ∧
       (target ∉ boundary →
          field md' ("filename_" +:+ code) i = Some NONE_NAME)) ∧
  (∀ d, d ∈ ["N"; "S"; "E"; "W"] →
     is_Some (md' !! ("Link_" +:+ d)) ∧ is_Some (md' !! ("filename_" +:+ d))).
Proof.
  intros Hload Hids Hb Hderive.
  apply load_data_ok in Hload as [_ Hm].
  apply extract_metadata_ok in Hm
    as (ids' & bands & mer & times & Hids' & _ & _ & _ & Hmd0).
  rewrite Hids in Hids'. injection Hids' as <-.
  unfold derive in Hderive. rewrite Hmd0 in Hderive. clear Hmd0.
  apply bind_ok in Hderive as (md1 & [sizes ->]%add_tif_sizes_ok & Hderive).
  apply bind_ok in Hderive as (md2 & Hmd2 & Hderive).
  unfold _process_boundary_connections in Hderive. rewrite Hb in Hderive.
  simpl in Hderive.
  apply bind_ok in Hderive as (md3 & Hmd3 & Hmd').
  destruct (directional_loop _ _ _ _ Hmd3 directions_NoDup) as [Hframe3 Hdirs].
  destruct (diagonal_loop _ _ _ _ Hmd' diagonals_NoDup) as [Hframe' Hdiags].
  assert (Hrows : md3 !! "row_number" = Some (PyStr.slice 0 4 <$> ids)).
  { rewrite Hframe3 by (intros d Hd; key_cases Hd; by subst).
    rewrite (generate_coordinates_frame _ _ _ Hmd2)
      by (intros Hk; key_cases Hk; discriminate).
    rewrite !lookup_insert_ne by done. by rewrite lookup_insert_eq. }
  assert (Hcols : md3 !! "column_number" = Some (PyStr.slice 7 12 <$> ids)).
  { rewrite Hframe3 by (intros d Hd; key_cases Hd; by subst).
    rewrite (generate_coordinates_frame _ _ _ Hmd2)
      by (intros Hk; key_cases Hk; discriminate).
    rewrite !lookup_insert_ne by done. by rewrite lookup_insert_eq. }
  split.
  - intros code dr dc Hin. split; [|split].
    + rewrite Hframe' by (intros d Hd; apply link_key_not_filename).
      rewrite Hframe3.
      2:{ intros d Hd. split; [|apply link_key_not_filename].
          intros Heq%link_key_inj. subst d.
          key_cases Hin; key_cases Hd; congruence. }
      rewrite (generate_coordinates_frame _ _ _ Hmd2)
        by (intros Hk; key_cases Hk; discriminate).
      by rewrite !lookup_insert_ne.
    + destruct (Hdiags code dr dc Hin) as (t & _ & Hf). rewrite Hf. eauto.
    + destruct (Hdiags code dr dc Hin) as (t & Ht & Hf).
      intros i s r c Hi Hr Hc target.
      unfold field. rewrite Hf. simpl. rewrite names_lookup.
      erewrite (target_coords_lookup dr dc md3 t _ _ i _ _ r c Ht Hrows Hcols);
        [|by rewrite list_lookup_fmap, Hi..|done|done].
      simpl. unfold _generate_filename. fold target.
      split; intros Hmem.
      * by rewrite bool_decide_true.
      * by rewrite bool_decide_false.
  - intros d Hd. destruct (direction_offset d Hd) as (dr & dc & Hin).
    destruct (Hdirs d dr dc Hin) as (t & _ & Hl & Hf).
    rewrite !Hframe'.
    + rewrite Hl, Hf. split; eauto.
    + intros d' Hd' Heq%filename_key_inj. subst d'.
      key_cases Hd; key_cases Hd'; congruence.
    + intros d' Hd'. apply link_key_not_filename.
Qed.

Lemma diagonal_fields_spec_witness :
  let md' := from_ok (derive no_tifs sample_processor) in
  md' !! "Link_EN" = None ∧
  field md' "filename_EN" 1 = Some "13.0-51.0" ∧
  field md' "filename_EN" 0 = Some NONE_NAME ∧
  is_Some (md' !! "Link_N") ∧ is_Some (md' !! "filename_N").
Proof.
  intros md'.
  destruct (diagonal_fields_spec no_tifs ∅
              sample_boundary_file sample_target_file ".xlsx"
              sample_processor
              ["0012XXX00051"; "0012XXX00050"] {[ (13, 51)%Z ]} md')
    as [Hdiag Hcard]; [reflexivity..|].
  destruct (Hdiag "EN" 1%Z 1%Z) as (Hnone & _ & Hen).
  { apply list_elem_of_further, list_elem_of_here. }
  destruct (Hcard "N" (list_elem_of_here _ _)) as [HlN HfN].
  destruct (Hen 1 "0012XXX00050" 12%Z 50%Z) as [Hin _]; [reflexivity..|].
  destruct (Hen 0 "0012XXX00051" 12%Z 51%Z) as [_ Hout]; [reflexivity..|].
  split; [exact Hnone|]. split; [|split; [|split; assumption]].
  - apply Hin. by apply elem_of_singleton.
  - apply Hout. intros Hmem%elem_of_singleton. discriminate Hmem.
Defined.

(** ** The boundary index *)

(** C8, counterexample.  A boundary table that exposes the identifier column
    [MapIndex] and nothing else is rejected: the loader demands the column
    [time] of the boundary table too. *)
Lemma boundary_without_time_rejected :
  is_Some ((<["MapIndex" := ["0013XXX00051"]]> ∅ : DataFrame) !! "MapIndex") ∧
  boundary_index (<["MapIndex" := ["0013XXX00051"]]> ∅) =
    Raise (RuntimeError PROCESS_FAILED (ValueError MISSING_COLUMNS)) ∧
  ∀ tpl target_file suffix,
    is_ok (load_data tpl (<["MapIndex" := ["0013XXX00051"]]> ∅)
             target_file suffix) = false.
Proof.
  split; [by eexists|]. split; [reflexivity|]. reflexivity.
Qed.

(** C8, as amended.  For a boundary table that exposes the columns
    [MapIndex] and [time] and whose identifiers have integer sub-fields at
    [0,4), [7,9) and [7,12), the boundary index is built, and it is the set
    of the (row, column) pairs of the identifiers: any other table with the
    same identifier column and a [time] column, whatever its other columns,
    gives the same index. *)
Theorem boundary_index_needs_both_columns (df1 df2 : DataFrame)
    (ids times : list string) (bs rs cs : list Z) :
  df1 !! "MapIndex" = Some ids →
  df1 !! "time" = Some times →
  traverse (λ s, py_int (PyStr.slice 7 9 s)) ids = Ok bs →
  traverse (λ s, py_int (PyStr.slice 0 4 s)) ids = Ok rs →
  traverse (λ s, py_int (PyStr.slice 7 12 s)) ids = Ok cs →
  boundary_index df1 = Ok (list_to_set (zip rs cs)) ∧
  (df2 !! "MapIndex" = Some ids → is_Some (df2 !! "time") →
   boundary_index df2 = boundary_index df1).
Proof.
  intros Hids Htimes Hbs Hrs Hcs.
  assert (Hgen : ∀ df times', df !! "MapIndex" = Some ids →
            df !! "time" = Some times' →
            boundary_index df = Ok (list_to_set (zip rs cs))).
  { intros df times' Hi Ht.
    pose proof (extract_metadata_parsed df ids times' bs Hi Ht Hbs) as Hmd.
    unfold boundary_index.
    rewrite (proj2 (process_excel_ok df _) Hmd). simpl.
    unfold _get_boundary_coordinates, getitem.
    rewrite !lookup_insert_ne by done. rewrite lookup_insert_eq. simpl.
    rewrite traverse_fmap. unfold compose. rewrite Hrs. simpl.
    rewrite !lookup_insert_ne by done. rewrite lookup_insert_eq. simpl.
    rewrite traverse_fmap. unfold compose. rewrite Hcs. done. }
  split; [by eapply Hgen|].
  intros Hi2 [times2 Ht2]. by rewrite (Hgen df1 times), (Hgen df2 times2).
Qed.

Lemma boundary_index_needs_both_columns_witness :
  boundary_index sample_boundary_file = Ok {[ (13, 51)%Z ]} ∧
  boundary_index (<["extra" := ["x"; "y"; "z"]]>
                    (table ["0013XXX00051"; "0013XXX00051"] ["u"; "v"])) =
  boundary_index sample_boundary_file.
Proof.
  destruct (boundary_index_needs_both_columns sample_boundary_file
              (<["extra" := ["x"; "y"; "z"]]>
                 (table ["0013XXX00051"; "0013XXX00051"] ["u"; "v"]))
              ["0013XXX00051"; "0013XXX00051"] ["t0"; "t0"]
              [0%Z; 0%Z] [13%Z; 13%Z] [51%Z; 51%Z])
    as [Hbuilt Hsame]; [reflexivity..|].
  split.
  - exact Hbuilt.
  - apply Hsame; [reflexivity|by eexists].
Defined.

(** C9.  When the row and column fields of two boundary dictionaries read
    as integers, the index of the first is built without error, a pair is
    in it exactly when it occurs among the pairs of the input, its size is
    the number of distinct pairs, and a second dictionary with the same
    pairs, in any order and with any repetitions, gives the same index. *)
Theorem boundary_index_set_semantics (bd1 bd2 : Dict)
    (rows1 cols1 rows2 cols2 : list string) (rs1 cs1 rs2 cs2 : list Z) :
  bd1 !! "row_number" = Some rows1 → bd1 !! "column_number" = Some cols1 →
  traverse py_int rows1 = Ok rs1 → traverse py_int cols1 = Ok cs1 →
  bd2 !! "row_number" = Some rows2 → bd2 !! "column_number" = Some cols2 →
  traverse py_int rows2 = Ok rs2 → traverse py_int cols2 = Ok cs2 →
  ∃ index,
    _get_boundary_coordinates bd1 = Ok index ∧
    (∀ p, p ∈ index ↔ p ∈ zip rs1 cs1) ∧
    size index = length (remove_dups (zip rs1 cs1)) ∧
    ((∀ p, p ∈ zip rs1 cs1 ↔ p ∈ zip rs2 cs2) →
     _get_boundary_coordinates bd2 = Ok index).
Proof.
  intros Hr1 Hc1 Hrs1 Hcs1 Hr2 Hc2 Hrs2 Hcs2.
  unfold _get_boundary_coordinates, getitem.
  rewrite Hr1, Hc1, Hr2, Hc2. simpl. rewrite Hrs1, Hcs1, Hrs2, Hcs2. simpl.
  eexists. split; [reflexivity|]. split; [|split].
  - intros p. apply elem_of_list_to_set.
  - rewrite <- (size_list_to_set (C:=gset (Z * Z)) (remove_dups (zip rs1 cs1)))
      by apply NoDup_remove_dups.
    f_equal. apply set_eq. intros p.
    by rewrite !elem_of_list_to_set, elem_of_remove_dups.
  - intros Hsame. f_equal. apply set_eq. intros p.
    rewrite !elem_of_list_to_set. symmetry. apply Hsame.
Qed.

Lemma boundary_index_set_semantics_witness :
  ∃ index,
    _get_boundary_coordinates
      (grid ["0013"; "0013"; "0014"] ["00051"; "00051"; "00052"]) = Ok index ∧
    size index = 2 ∧
    _get_boundary_coordinates (grid ["0014"; "0013"] ["00052"; "00051"]) = Ok index.
Proof.
  destruct (boundary_index_set_semantics
              (grid ["0013"; "0013"; "0014"] ["00051"; "00051"; "00052"])
              (grid ["0014"; "0013"] ["00052"; "00051"])
              ["0013"; "0013"; "0014"] ["00051"; "00051"; "00052"]
              ["0014"; "0013"] ["00052"; "00051"]
              [13; 13; 14]%Z [51; 51; 52]%Z [14; 13]%Z [52; 51]%Z)
    as (index & Hbuilt & _ & Hsize & Hsame); [reflexivity..|].
  exists index. split; [exact Hbuilt|]. split; [exact Hsize|].
  apply Hsame. intros p. simpl. rewrite !elem_of_cons, elem_of_nil. tauto.
Defined.

(** ** The validator and the emission *)

Lemma validate_raise_inv (md : Dict) (e : exn) :
  _validate_data_consistency md = Raise e →
  e = ValueError FIELD_LENGTHS ∨ e = ValueError DUPLICATE_NAMES ∨
  e = KeyError "file_name".
Proof.
  unfold _validate_data_consistency, getitem.
  case_bool_decide; [intros [= <-]; by left|].
  destruct (md !! "file_name"); simpl; [|intros [= <-]; by right; right].
  case_bool_decide; [intros [= <-]; by right; left|discriminate].
Qed.

(** The output directory changes only when the validator has accepted the
    derived dictionary. *)
Lemma output_requires_validation (probe : string → option string)
    (p : MetadataProcessor) (out : OutDir) :
  (generate_metadata probe p out).1 ≠ out →
  ∃ md, derive probe p = Ok md ∧ _validate_data_consistency md = Ok ().
Proof.
  unfold generate_metadata, _generate_output.
  destruct (derive probe p) as [md|]; simpl; [|done].
  destruct (_validate_data_consistency md) as [[]|] eqn:Hv; simpl; [|done].
  intros _. by exists md.
Qed.

(** C6.  The validator runs on the dictionary all derivation steps have
    produced, before the first sheet is written: when it raises, the batch
    ends with its exception and the output directory is as it was, no sheet
    of any tile having been written. *)
Theorem validator_gates_output (probe : string → option string)
    (p : MetadataProcessor) (out : OutDir) (md : Dict) (e : exn) :
  derive probe p = Ok md →
  _validate_data_consistency md = Raise e →
  generate_metadata probe p out = (out, Raise e).
Proof.
  intros Hd Hv. unfold generate_metadata, _generate_output. by rewrite Hd, Hv.
Qed.

Lemma validator_gates_output_witness :
  generate_metadata no_tifs twin_processor ∅ =
  (∅, Raise (ValueError DUPLICATE_NAMES)).
Proof.
  apply (validator_gates_output no_tifs twin_processor ∅
           (from_ok (derive no_tifs twin_processor))); reflexivity.
Defined.

(** C4, the code at a failing input.  Two tiles whose identifiers differ
    only in a character the writer replaces by an underscore: the validator,
    which compares the identifiers as they were read, accepts the batch, and
    the two tiles are written to one and the same file. *)
Example sanitized_duplicates_pass_validation :
  "0012/XX00051" ≠ "0012*XX00051" ∧
  safe_name "0012/XX00051" = "0012_XX00051" ∧
  safe_name "0012*XX00051" = "0012_XX00051" ∧
  _validate_data_consistency (from_ok (derive no_tifs clash_processor)) = Ok () ∧
  (generate_metadata no_tifs clash_processor ∅).2 = Ok () ∧
  dom (generate_metadata no_tifs clash_processor ∅).1 = {[ "0012_XX00051.xlsx" ]}.
Proof.
  split; [discriminate|]. repeat split; vm_compute; reflexivity.
Qed.

(** * Further properties of the processor *)

(** ** The validator *)

Lemma remove_dups_length_le {A} `{EqDecision A} (l : list A) :
  length (remove_dups l) ≤ length l.
Proof.
  induction l as [|x l IH]; simpl; [done|]. case_decide; simpl; lia.
Qed.

Lemma remove_dups_length_NoDup {A} `{EqDecision A} (l : list A) :
  length (remove_dups l) = length l ↔ NoDup l.
Proof.
  split.
  - induction l as [|x l IH]; simpl; [constructor|].
    pose proof (remove_dups_length_le l). case_decide; simpl; [lia|].
    intros [= Hlen]. constructor; auto.
  - intros Hnd. induction Hnd as [|x l Hx _ IH]; simpl; [done|].
    case_decide; [done|]. simpl. by rewrite IH.
Qed.

Lemma size_list_to_set_NoDup (l : list string) :
  length l = size (list_to_set l : gset string) ↔ NoDup l.
Proof.
  rewrite <- remove_dups_length_NoDup.
  assert (size (list_to_set l : gset string) = length (remove_dups l)) as ->.
  { rewrite <- (size_list_to_set (C:=gset string) (remove_dups l))
      by apply NoDup_remove_dups.
    f_equal. apply set_eq. intros p.
    by rewrite !elem_of_list_to_set, elem_of_remove_dups. }
  split; congruence.
Qed.

Lemma elem_of_lengths (md : Dict) (n : nat) :
  n ∈ (list_to_set (map_to_list (length <$> md)).*2 : gset nat) ↔
  ∃ k v, md !! k = Some v ∧ length v = n.
Proof.
  rewrite elem_of_list_to_set, list_elem_of_fmap. split.
  - intros ([k m] & -> & Hkm%elem_of_map_to_list).
    apply lookup_fmap_Some in Hkm as (v & Hlen & Hv). eauto.
  - intros (k & v & Hv & Hlen). exists (k, n). split; [done|].
    apply elem_of_map_to_list, lookup_fmap_Some. eauto.
Qed.

Lemma lengths_agree (md : Dict) :
  ¬ 1 < size (list_to_set (map_to_list (length <$> md)).*2 : gset nat) ↔
  ∃ n, uniform n md.
Proof.
  set (S := list_to_set (map_to_list (length <$> md)).*2 : gset nat).
  split.
  - intros Hsize. destruct (decide (S = ∅)) as [Hempty|Hne].
    + exists 0. intros k v Hv.
      assert (length v ∈ S) as Hin by (apply elem_of_lengths; eauto).
      rewrite Hempty in Hin. by apply not_elem_of_empty in Hin.
    + apply set_choose_L in Hne as [n Hn]. exists n. intros k v Hv.
      assert (length v ∈ S) as Hin by (apply elem_of_lengths; eauto).
      assert (size S = 1) as Hone.
      { assert (size S ≠ 0); [|lia]. intros H0%size_empty_inv.
        apply (not_elem_of_empty (C:=gset nat) n). by apply H0. }
      by apply (size_singleton_inv S).
  - intros [n Hn] Hsize.
    destruct (size_pos_elem_of S) as [a Ha]; [lia|].
    assert (S ⊆ {[ a ]}) as Hsub.
    { intros b Hb. apply elem_of_singleton.
      apply elem_of_lengths in Ha as (?&?& Hva & <-).
      apply elem_of_lengths in Hb as (?&?& Hvb & <-).
      by rewrite (Hn _ _ Hva), (Hn _ _ Hvb). }
    apply subseteq_size in Hsub. rewrite size_singleton in Hsub. lia.
Qed.

Lemma validate_ok_iff (md : Dict) :
  _validate_data_consistency md = Ok () ↔
  (∃ n, uniform n md) ∧ ∃ names, md !! "file_name" = Some names ∧ NoDup names.
Proof.
  unfold _validate_data_consistency, getitem.
  case_bool_decide as Hlen.
  - split; [discriminate|]. intros [Hu _]. by apply lengths_agree in Hu.
  - apply lengths_agree in Hlen.
    destruct (md !! "file_name") as [names|]; simpl.
    + case_bool_decide as Hdup.
      * split; [discriminate|]. intros [_ (names' & [= <-] & Hnd)].
        by apply size_list_to_set_NoDup in Hnd.
      * split; [|done]. intros _. split; [done|]. exists names. split; [done|].
        apply size_list_to_set_NoDup. destruct (decide (length names = size (list_to_set names : gset string))); [done|]. by destruct Hdup.
    + split; [discriminate|]. by intros [_ (? & [=] & _)].
Qed.

(** X1.  [_validate_data_consistency] returns normally exactly when all the
    lists of the dictionary have one and the same length and the list
    [file_name] is there and has no repeated entry. *)
Theorem validator_accepts_iff (md : Dict) :
  _validate_data_consistency md = Ok () ↔
  (∃ n, uniform n md) ∧ ∃ names, md !! "file_name" = Some names ∧ NoDup names.
Proof. apply validate_ok_iff. Qed.

(** ** The lengths of the derived fields *)

Lemma uniform_insert (n : nat) (md : Dict) (k : string) (l : list string) :
  uniform n md → length l = n → uniform n (<[k := l]> md).
Proof. intros Hu Hl. by apply map_Forall_insert_2. Qed.

Lemma uniform_lookup (n : nat) (md : Dict) (k : string) (l : list string) :
  uniform n md → md !! k = Some l → length l = n.
Proof. intros Hu Hk. exact (Hu k l Hk). Qed.

Lemma target_coords_length (dr dc : Z) (md : Dict) (t : list (Z * Z)) (n : nat) :
  target_coords dr dc md = Ok t → uniform n md → length t = n.
Proof.
  unfold target_coords. intros H Hu.
  apply bind_ok in H as (rows & Hrows%getitem_ok & H).
  apply bind_ok in H as (cols & Hcols%getitem_ok & H).
  apply traverse_length in H. rewrite H, length_zip_with.
  rewrite (uniform_lookup _ _ _ _ Hu Hrows), (uniform_lookup _ _ _ _ Hu Hcols).
  lia.
Qed.

Lemma directional_loop_uniform boundary (ds : list (string * (Z * Z)))
    (md md' : Dict) (n : nat) :
  foldM (directional_step boundary) md ds = Ok md' → uniform n md → uniform n md'.
Proof.
  revert md. induction ds as [|[d [dr dc]] ds IH]; intros md; simpl.
  - by intros [= <-].
  - rewrite bind_ok. intros (md1 & Hstep & Hrest) Hu.
    apply directional_step_ok in Hstep as (t & Ht & ->).
    apply (IH _ Hrest).
    pose proof (target_coords_length _ _ _ _ _ Ht Hu) as Hlen.
    apply uniform_insert; [apply uniform_insert; [done|]|].
    + by rewrite length_fmap.
    + rewrite length_fmap, length_zip_with. lia.
Qed.

Lemma diagonal_loop_uniform boundary (ds : list (string * (Z * Z)))
    (md md' : Dict) (n : nat) :
  foldM (diagonal_step boundary) md ds = Ok md' → uniform n md → uniform n md'.
Proof.
  revert md. induction ds as [|[d [dr dc]] ds IH]; intros md; simpl.
  - by intros [= <-].
  - rewrite bind_ok. intros (md1 & Hstep & Hrest) Hu.
    apply diagonal_step_ok in Hstep as (t & Ht & ->).
    apply (IH _ Hrest).
    pose proof (target_coords_length _ _ _ _ _ Ht Hu) as Hlen.
    apply uniform_insert; [done|].
    rewrite length_fmap, length_zip_with. lia.
Qed.

Lemma generate_coordinates_ok (md md' : Dict) :
  _generate_coordinates md = Ok md' →
  ∃ rows cols names row col,
    md !! "row_number" = Some rows ∧ md !! "column_number" = Some cols ∧
    md !! "file_name" = Some names ∧
    traverse py_int rows = Ok row ∧ traverse py_int cols = Ok col ∧
    md' = <["WS_X" := (λ r, fmt00 (r * 1000)) <$> row]>
      (<["WS_Y" := (λ c, fmt00 (c * 1000)) <$> col]>
      (<["WN_X" := (λ r, fmt00 ((r + 1) * 1000)) <$> row]>
      (<["WN_Y" := (λ c, fmt00 (c * 1000)) <$> col]>
      (<["EN_X" := (λ r, fmt00 ((r + 1) * 1000)) <$> row]>
      (<["EN_Y" := (λ c, fmt00 ((c + 1) * 1000)) <$> col]>
      (<["ES_X" := (λ r, fmt00 (r * 1000)) <$> row]>
      (<["ES_Y" := (λ c, fmt00 ((c + 1) * 1000)) <$> col]>
      (<["filename" := (λ name, FILE_PREFIX +:+ name) <$> names]> md))))))))%Z.
Proof.
  unfold _generate_coordinates. rewrite bind_ok.
  intros (rows & Hrows%getitem_ok & H).
  apply bind_ok in H as (row & Hrow & H).
  apply bind_ok in H as (cols & Hcols%getitem_ok & H).
  apply bind_ok in H as (col & Hcol & H).
  apply bind_ok in H as (names & Hnames%getitem_ok & [= <-]).
  by exists rows, cols, names, row, col.
Qed.

Lemma generate_coordinates_uniform (md md' : Dict) (n : nat) :
  _generate_coordinates md = Ok md' → uniform n md → uniform n md'.
Proof.
  intros (rows & cols & names & row & col & Hrows & Hcols & Hnames &
          Hrow%traverse_length & Hcol%traverse_length & ->)%generate_coordinates_ok Hu.
  rewrite (uniform_lookup _ _ _ _ Hu Hrows) in Hrow.
  rewrite (uniform_lookup _ _ _ _ Hu Hcols) in Hcol.
  pose proof (uniform_lookup _ _ _ _ Hu Hnames) as Hn.
  repeat (apply uniform_insert; [|by rewrite length_fmap]). done.
Qed.

Lemma add_tif_sizes_uniform probe (md md' : Dict) (n : nat) :
  _add_tif_sizes probe md = Ok md' → uniform n md → uniform n md'.
Proof.
  unfold _add_tif_sizes. rewrite bind_ok.
  intros (names & Hnames%getitem_ok & [= <-]) Hu.
  apply uniform_insert; [done|].
  rewrite length_fmap. by apply (uniform_lookup _ _ _ _ Hu Hnames).
Qed.

Lemma extract_metadata_uniform (df : DataFrame) (md : Dict)
    (ids times : list string) :
  _extract_metadata df = Ok md →
  df !! "MapIndex" = Some ids → df !! "time" = Some times →
  length times = length ids →
  uniform (length ids) md.
Proof.
  intros (ids' & bands & mer & times' & Hi & Ht & Hb%traverse_length &
          Hm%traverse_length & ->)%extract_metadata_ok Hids Htimes Hlen.
  rewrite Hids in Hi. injection Hi as <-.
  rewrite Htimes in Ht. injection Ht as <-.
  rewrite length_fmap in Hm.
  repeat (apply uniform_insert; [|by rewrite ?length_fmap]).
  apply map_Forall_empty.
Qed.

Lemma derive_uniform probe (p : MetadataProcessor) (md : Dict) (n : nat) :
  derive probe p = Ok md → uniform n (metadata_data p) → uniform n md.
Proof.
  unfold derive. intros H Hu.
  apply bind_ok in H as (md1 & Hmd1 & H).
  apply bind_ok in H as (md2 & Hmd2 & H).
  unfold _process_boundary_connections in H.
  apply bind_ok in H as (boundary & _ & H).
  apply bind_ok in H as (md3 & Hmd3 & H).
  eapply diagonal_loop_uniform; [exact H|].
  eapply directional_loop_uniform; [exact Hmd3|].
  eapply generate_coordinates_uniform; [exact Hmd2|].
  eapply add_tif_sizes_uniform; [exact Hmd1|done].
Qed.

Lemma derive_frame probe (p : MetadataProcessor) (md : Dict) (k : string) :
  derive probe p = Ok md → k ∉ derived_keys → md !! k = metadata_data p !! k.
Proof.
  unfold derive. intros H Hk.
  apply bind_ok in H as (md1 & [sizes ->]%add_tif_sizes_ok & H).
  apply bind_ok in H as (md2 & Hmd2 & H).
  unfold _process_boundary_connections in H.
  apply bind_ok in H as (boundary & _ & H).
  apply bind_ok in H as (md3 & Hmd3 & H).
  destruct (directional_loop _ _ _ _ Hmd3 directions_NoDup) as [Hframe3 _].
  destruct (diagonal_loop _ _ _ _ H diagonals_NoDup) as [Hframe' _].
  unfold derived_keys in Hk. cbn in Hk.
  rewrite !not_elem_of_cons in Hk.
  destruct Hk as (?&?&?&?&?&?&?&?&?&?&?&?&?&?&?&?&?&?&?&?&?&?&_).
  rewrite Hframe' by (intros d Hd; key_cases Hd; by subst).
  rewrite Hframe3 by (intros d Hd; key_cases Hd; by subst).
  rewrite (generate_coordinates_frame _ _ _ Hmd2)
    by (intros Hin; key_cases Hin; by subst).
  by rewrite lookup_insert_ne.
Qed.

(** X2.  For a processor loaded from a target table whose two columns have
    as many cells as each other, every list of the derived dictionary has
    one entry per tile; the validator then accepts the batch exactly when
    the identifiers are pairwise distinct, and otherwise it raises the
    duplicate-name error, never the field-length error. *)
Theorem derived_validation_iff_distinct (probe : string → option string)
    (tpl : Sheet) (boundary_file target_file : DataFrame) (suffix : string)
    (p : MetadataProcessor) (ids times : list string) (md : Dict) :
  load_data tpl boundary_file target_file suffix = Ok p →
  target_file !! "MapIndex" = Some ids →
  target_file !! "time" = Some times →
  length times = length ids →
  derive probe p = Ok md →
  uniform (length ids) md ∧
  (_validate_data_consistency md = Ok () ↔ NoDup ids) ∧
  (¬ NoDup ids →
   _validate_data_consistency md = Raise (ValueError DUPLICATE_NAMES)).
Proof.
  intros Hload Hids Htimes Hlen Hderive.
  apply load_data_ok in Hload as [_ Hm].
  pose proof (extract_metadata_uniform _ _ _ _ Hm Hids Htimes Hlen) as Hu0.
  pose proof (derive_uniform _ _ _ _ Hderive Hu0) as Hu.
  assert (Hnames : md !! "file_name" = Some ids).
  { rewrite (derive_frame _ _ _ _ Hderive)
      by (apply (bool_decide_unpack _); by vm_compute).
    apply extract_metadata_ok in Hm as (ids' & ? & ? & ? & Hi & _ & _ & _ & ->).
    rewrite Hids in Hi. injection Hi as <-. by rewrite lookup_insert_eq. }
  split; [exact Hu|]. split.
  - rewrite validate_ok_iff. split.
    + intros [_ (names & Hn & Hnd)]. congruence.
    + intros Hnd. split; [eauto|eauto].
  - intros Hdup.
    destruct (_validate_data_consistency md) as [[]|e] eqn:Hv.
    + apply validate_ok_iff in Hv as [_ (names & Hn & Hnd)]. congruence.
    + unfold _validate_data_consistency, getitem in Hv. rewrite Hnames in Hv.
      case_bool_decide as Hl; [|simpl in Hv; case_bool_decide; congruence].
      destruct (proj2 (lengths_agree md)); eauto.
Qed.

(** ** The keys of the derived dictionary *)

Lemma derive_present probe (p : MetadataProcessor) (md : Dict) (k : string) :
  derive probe p = Ok md → k ∈ derived_keys → is_Some (md !! k).
Proof.
  unfold derive. intros H Hk.
  apply bind_ok in H as (md1 & [sizes ->]%add_tif_sizes_ok & H).
  apply bind_ok in H as (md2 & Hmd2 & H).
  unfold _process_boundary_connections in H.
  apply bind_ok in H as (boundary & _ & H).
  apply bind_ok in H as (md3 & Hmd3 & H).
  destruct (directional_loop _ _ _ _ Hmd3 directions_NoDup) as [Hframe3 Hdirs].
  destruct (diagonal_loop _ _ _ _ H diagonals_NoDup) as [Hframe' Hdiags].
  assert (Hcard : ∀ d dr dc, (d, (dr, dc)) ∈ directions →
            is_Some (md !! ("Link_" +:+ d)) ∧ is_Some (md !! ("filename_" +:+ d))).
  { intros d dr dc Hin. destruct (Hdirs d dr dc Hin) as (t & _ & Hl & Hf).
    rewrite !Hframe'.
    - rewrite Hl, Hf. split; eauto.
    - intros d' Hd' Heq%filename_key_inj. subst d'.
      key_cases Hin; key_cases Hd'; congruence.
    - intros d' Hd'. apply link_key_not_filename. }
  assert (Hdiag : ∀ d dr dc, (d, (dr, dc)) ∈ diagonals →
            is_Some (md !! ("filename_" +:+ d))).
  { intros d dr dc Hin. destruct (Hdiags d dr dc Hin) as (t & _ & Hf).
    rewrite Hf. eauto. }
  assert (Hearly : ∀ k', k' ∈ "tif_size" :: coordinate_keys →
            is_Some (md2 !! k') → is_Some (md !! k')).
  { intros k' Hk' Hsome.
    rewrite Hframe' by (intros d Hd; key_cases Hd; key_cases Hk'; by subst).
    rewrite Hframe3 by (intros d Hd; key_cases Hd; key_cases Hk'; by subst).
    done. }
  apply generate_coordinates_ok in Hmd2
    as (rows & cols & names & row & col & _ & _ & _ & _ & _ & Hmd2).
  unfold derived_keys in Hk. rewrite elem_of_cons, !elem_of_app in Hk.
  destruct Hk as [->|[Hk|[Hk|Hk]]].
  - apply Hearly; [left|]. subst md2.
    rewrite !lookup_insert_ne by done. rewrite lookup_insert_eq. eauto.
  - apply Hearly; [by right|]. subst md2.
    key_cases Hk; subst k;
      rewrite ?lookup_insert_ne by done; rewrite lookup_insert_eq; eauto.
  - cbn in Hk. rewrite !elem_of_cons, elem_of_nil in Hk.
    assert (HN := Hcard "N" 1%Z 0%Z).
    assert (HS := Hcard "S" (-1)%Z 0%Z).
    assert (HE := Hcard "E" 0%Z 1%Z).
    assert (HW := Hcard "W" 0%Z (-1)%Z).
    unfold directions in HN, HS, HE, HW.
    rewrite !elem_of_cons in HN, HS, HE, HW.
    repeat (destruct Hk as [->|Hk]); [..|destruct Hk];
      first [apply HN|apply HS|apply HE|apply HW]; tauto.
  - apply list_elem_of_fmap in Hk as ([d [dr dc]] & -> & Hin).
    by apply (Hdiag d dr dc).
Qed.

(** X3.  The derivation steps only add fields: the keys of the derived
    dictionary are the keys it had before and the 22 derived keys, and every
    other field, the six loaded ones among them, is left as it was. *)
Theorem derive_adds_fields (probe : string → option string)
    (p : MetadataProcessor) (md : Dict) :
  derive probe p = Ok md →
  dom md = dom (metadata_data p) ∪ list_to_set derived_keys ∧
  ∀ k, k ∉ derived_keys → md !! k = metadata_data p !! k.
Proof.
  intros Hd. split; [|intros k; by apply (derive_frame probe)].
  apply set_eq. intros k.
  rewrite elem_of_union, !elem_of_dom, elem_of_list_to_set.
  destruct (decide (k ∈ derived_keys)) as [Hin|Hout].
  - split; [by right|]. intros _. by eapply derive_present.
  - rewrite (derive_frame _ _ _ _ Hd Hout). tauto.
Qed.

(** ** The emission loop *)

Lemma string_app_inv_tail (s1 s2 t : string) : s1 +:+ t = s2 +:+ t → s1 = s2.
Proof.
  revert s2. induction s1 as [|c s1 IH]; intros [|c' s2] H.
  - done.
  - apply (f_equal String.length) in H.
    rewrite !string_length_app in H. simpl in H. lia.
  - apply (f_equal String.length) in H.
    rewrite !string_length_app in H. simpl in H. lia.
  - simpl in H. injection H as -> H. f_equal. by apply IH.
Qed.












Lemma write_step_other (data : gmap string string) (l : list (string * string))
    (ws : Sheet) (cell : string) :
  cell ∉ l.*2 →
  foldl (λ ws fc, match data !! fc.1 with
                  | Some v => <[fc.2 := v]> ws
                  | None => ws
                  end) ws l !! cell = ws !! cell.
Proof.
  revert ws. induction l as [|[f c] l IH]; intros ws Hnot; csimpl; [done|].
  apply not_elem_of_cons in Hnot as [Hne Hnot]. rewrite IH by done.
  simpl. destruct (data !! f); [by rewrite lookup_insert_ne|done].
Qed.

Lemma write_step_mapped (data : gmap string string) (l : list (string * string))
    (ws : Sheet) (field cell : string) :
  NoDup l.*2 → (field, cell) ∈ l →
  foldl (λ ws fc, match data !! fc.1 with
                  | Some v => <[fc.2 := v]> ws
                  | None => ws
                  end) ws l !! cell =
  match data !! field with Some v => Some v | None => ws !! cell end.
Proof.
  revert ws. induction l as [|[f c] l IH]; intros ws Hnd Hin; csimpl.
  - by apply elem_of_nil in Hin.
  - apply NoDup_cons in Hnd as [Hc Hnd].
    apply elem_of_cons in Hin as [[= <- <-]|Hin].
    + rewrite write_step_other by done. simpl.
      destruct (data !! field); [by rewrite lookup_insert_eq|done].
    + rewrite IH by done. simpl.
      assert (c ≠ cell) as Hne.
      { intros ->. apply Hc, list_elem_of_fmap. by exists (field, cell). }
      destruct (data !! field); [done|].
      destruct (data !! f); [by rewrite lookup_insert_ne|done].
Qed.

Lemma mapping_cells_NoDup : NoDup mapping.*2.
Proof. apply (bool_decide_unpack _). by vm_compute. Qed.

(** X5.  In the sheet written for a tile, each cell of [mapping] holds the
    value of its field for that tile, or the cell of the template when the
    dictionary has no such value, and every cell outside [mapping] is the
    cell of the template. *)
Theorem sheet_cells (tpl : Sheet) (md : Dict) (i : nat) :
  (∀ fld cell, (fld, cell) ∈ mapping →
     sheet_of tpl md i !! cell =
     match field md fld i with Some v => Some v | None => tpl !! cell end) ∧
  (∀ cell, cell ∉ mapping.*2 → sheet_of tpl md i !! cell = tpl !! cell).
Proof.
  unfold sheet_of, write_cells. split.
  - intros fld cell Hin.
    rewrite (write_step_mapped _ _ _ fld cell mapping_cells_NoDup Hin).
    by rewrite lookup_omap.
  - intros cell Hnot. by apply write_step_other.
Qed.


(** ** The sanitized names *)

Section strip_facts.
Context (p : ascii → bool).

Lemma lstrip_head (s : string) :
  match PyStr.lstrip_by p s with
  | EmptyString => True
  | String c _ => p c = false
  end.
Proof.
  induction s as [|c s IH]; simpl; [done|].
  destruct (p c) eqn:Hc; [exact IH|done].
Qed.

Lemma rstrip_idem (s : string) :
  PyStr.rstrip_by p (PyStr.rstrip_by p s) = PyStr.rstrip_by p s.
Proof.
  induction s as [|c s IH]; simpl; [done|].
  destruct (PyStr.rstrip_by p s) as [|c' t] eqn:Ht.
  - destruct (p c) eqn:Hc; simpl; [done|by rewrite Hc].
  - simpl in *. by rewrite IH.
Qed.

Lemma rstrip_keeps_head (c : ascii) (t : string) :
  p c = false → ∃ t', PyStr.rstrip_by p (String c t) = String c t'.
Proof.
  intros Hc. simpl. destruct (PyStr.rstrip_by p t); [rewrite Hc|]; eauto.
Qed.

Lemma rstrip_last (s : string) :
  match PyStr.rstrip_by p s with
  | EmptyString => True
  | String c t => ∃ c' u, String c t = u +:+ String c' EmptyString ∧ p c' = false
  end.
Proof.
  induction s as [|c s IH]; simpl; [done|].
  destruct (PyStr.rstrip_by p s) as [|c1 t1].
  - destruct (p c) eqn:Hc; [done|]. by exists c, "".
  - destruct IH as (c' & u & -> & Hc'). by exists c', (String c u).
Qed.

Lemma strip_idem (s : string) :
  PyStr.strip_by p (PyStr.strip_by p s) = PyStr.strip_by p s.
Proof.
  unfold PyStr.strip_by. pose proof (lstrip_head s) as Hhead.
  destruct (PyStr.lstrip_by p s) as [|c t]; [done|].
  destruct (rstrip_keeps_head c t Hhead) as [t' Ht']. rewrite Ht'.
  simpl PyStr.lstrip_by. rewrite Hhead, <- Ht'. apply rstrip_idem.
Qed.

Lemma all_chars_lstrip (q : ascii → bool) (s : string) :
  all_chars q s = true → all_chars q (PyStr.lstrip_by p s) = true.
Proof.
  induction s as [|c s IH]; simpl; [done|].
  intros [Hc Hs]%andb_true_iff. destruct (p c); [auto|]. simpl. by rewrite Hc.
Qed.

Lemma all_chars_rstrip (q : ascii → bool) (s : string) :
  all_chars q s = true → all_chars q (PyStr.rstrip_by p s) = true.
Proof.
  induction s as [|c s IH]; simpl; [done|].
  intros [Hc Hs]%andb_true_iff. specialize (IH Hs).
  destruct (PyStr.rstrip_by p s).
  - destruct (p c); [done|]. simpl. by rewrite Hc.
  - simpl in *. by rewrite Hc.
Qed.
Lemma lstrip_length (s : string) :
  String.length (PyStr.lstrip_by p s) ≤ String.length s.
Proof. induction s as [|c s IH]; simpl; [done|]. destruct (p c); simpl; lia. Qed.

Lemma rstrip_length (s : string) :
  String.length (PyStr.rstrip_by p s) ≤ String.length s.
Proof.
  induction s as [|c s IH]; simpl; [done|].
  destruct (PyStr.rstrip_by p s); [destruct (p c)|]; simpl in *; lia.
Qed.

Lemma rstrip_head_same (s : string) (c : ascii) (t : string) :
  PyStr.rstrip_by p s = String c t → ∃ t0, s = String c t0.
Proof.
  destruct s as [|c0 s]; simpl; [discriminate|].
  destruct (PyStr.rstrip_by p s); [destruct (p c0); [discriminate|]|];
    intros [= <- _]; eauto.
Qed.

Lemma strip_head (s : string) (c : ascii) (t : string) :
  PyStr.strip_by p s = String c t → p c = false.
Proof.
  unfold PyStr.strip_by. intros [t0 Ht0]%rstrip_head_same.
  pose proof (lstrip_head s) as Hhead. by rewrite Ht0 in Hhead.
Qed.

End strip_facts.

Lemma sanitize_safe (c : ascii) :
  is_unsafe (if is_unsafe c then "_"%char else c) = false.
Proof. by destruct (is_unsafe c) eqn:Hc. Qed.

Lemma all_chars_map_sanitize (s : string) :
  all_chars (λ c, negb (is_unsafe c))
    (PyStr.map_chars (λ c, if is_unsafe c then "_"%char else c) s) = true.
Proof.
  induction s as [|c s IH]; simpl; [done|].
  rewrite IH, andb_true_r. apply negb_true_iff, (sanitize_safe c).
Qed.

Lemma map_sanitize_id (s : string) :
  all_chars (λ c, negb (is_unsafe c)) s = true →
  PyStr.map_chars (λ c, if is_unsafe c then "_"%char else c) s = s.
Proof.
  induction s as [|c s IH]; simpl; [done|].
  intros [Hc%negb_true_iff Hs]%andb_true_iff. by rewrite Hc, IH.
Qed.

Lemma safe_name_all_safe (s : string) :
  all_chars (λ c, negb (is_unsafe c)) (safe_name s) = true.
Proof.
  unfold safe_name, PyStr.strip, PyStr.strip_by.
  apply all_chars_rstrip, all_chars_lstrip, all_chars_map_sanitize.
Qed.

Lemma map_chars_length (f : ascii → ascii) (s : string) :
  String.length (PyStr.map_chars f s) = String.length s.
Proof. induction s as [|c s IH]; simpl; [done|]. by rewrite IH. Qed.

Lemma string_snoc_inj (u u' : string) (c c' : ascii) :
  u +:+ String c EmptyString = u' +:+ String c' EmptyString → c = c'.
Proof.
  revert u'. induction u as [|a u IH]; intros [|a' u'] H; simpl in H.
  - by injection H.
  - injection H as _ H. by destruct u'.
  - injection H as _ H. by destruct u.
  - injection H as _ H. by apply (IH u').
Qed.

(** X6.  The sanitized name of [_generate_single_file] holds none of the
    nine replaced characters, is no longer than the identifier, neither
    starts nor ends with white space, and sanitizing it again changes
    nothing. *)
Theorem safe_name_spec (s : string) :
  all_chars (λ c, negb (is_unsafe c)) (safe_name s) = true ∧
  String.length (safe_name s) ≤ String.length s ∧
  (∀ c t, safe_name s = String c t → PyStr.is_strip_space c = false) ∧
  (∀ c u, safe_name s = u +:+ String c EmptyString →
          PyStr.is_strip_space c = false) ∧
  safe_name (safe_name s) = safe_name s.
Proof.
  split; [apply safe_name_all_safe|]. split; [|split; [|split]].
  - unfold safe_name, PyStr.strip, PyStr.strip_by.
    etrans; [apply rstrip_length|]. etrans; [apply lstrip_length|].
    by rewrite map_chars_length.
  - intros c t. apply strip_head.
  - intros c u Hs. unfold safe_name, PyStr.strip, PyStr.strip_by in Hs.
    pose proof (rstrip_last PyStr.is_strip_space
      (PyStr.lstrip_by PyStr.is_strip_space
         (PyStr.map_chars (λ c, if is_unsafe c then "_"%char else c) s))) as Hlast.
    rewrite Hs in Hlast. destruct u; simpl in Hlast;
      destruct Hlast as (c' & u' & Heq & Hc');
      [change (String c "") with ("" +:+ String c "") in Heq|
       change (String a (u +:+ String c "")) with (String a u +:+ String c "") in Heq];
      by rewrite (string_snoc_inj _ _ _ _ Heq).
  - unfold safe_name at 1. rewrite map_sanitize_id by apply safe_name_all_safe.
    unfold safe_name, PyStr.strip. apply strip_idem.
Qed.

(** ** The neighbour file names *)

Lemma uint_no_dot (u : Decimal.uint) :
  all_chars (λ c, negb (PyStr.code c =? 46)) (NilEmpty.string_of_uint u) = true.
Proof. induction u; simpl; done. Qed.

Lemma str_no_dot (n : Z) :
  all_chars (λ c, negb (PyStr.code c =? 46)) (PyStr.str n) = true.
Proof.
  unfold PyStr.str. destruct n as [|p|p]; [done|..]; simpl;
    rewrite string_of_uint_nonnil by apply Unsigned.to_uint_nonnil;
    [|simpl]; apply uint_no_dot.
Qed.

Lemma app_dot_inj (a b x y : string) :
  all_chars (λ c, negb (PyStr.code c =? 46)) a = true →
  all_chars (λ c, negb (PyStr.code c =? 46)) b = true →
  a +:+ String "." x = b +:+ String "." y → a = b ∧ x = y.
Proof.
  revert b. induction a as [|c a IH]; intros [|c' b] Ha Hb H; simpl in *.
  - by injection H.
  - injection H as <- _. done.
  - injection H as -> _. done.
  - apply andb_true_iff in Ha as [_ Ha]. apply andb_true_iff in Hb as [_ Hb].
    injection H as -> H. destruct (IH b Ha Hb H) as [-> ->]. done.
Qed.

Lemma str_inj (a b : Z) : PyStr.str a = PyStr.str b → a = b.
Proof.
  intros H. pose proof (int_str a) as Ha. rewrite H, int_str in Ha.
  by injection Ha.
Qed.

(** X7.  [_generate_filename] gives different names to different grid
    cells. *)
Theorem generate_filename_inj (r c r' c' : Z) :
  _generate_filename r c = _generate_filename r' c' → r = r' ∧ c = c'.
Proof.
  unfold _generate_filename. intros H.
  apply app_dot_inj in H as [Hr H]; [|apply str_no_dot..].
  injection H as H. apply string_app_inv_tail in H.
  split; by apply str_inj.
Qed.

(** ** The boundary index and the links *)

Lemma boundary_connections_fields (bd md md' : Dict) :
  _process_boundary_connections bd md = Ok md' →
  ∃ boundary, _get_boundary_coordinates bd = Ok boundary ∧
    (∀ d dr dc, (d, (dr, dc)) ∈ directions →
       ∃ t, target_coords dr dc md = Ok t ∧
            md' !! ("Link_" +:+ d) = Some (link_of boundary <$> t) ∧
            md' !! ("filename_" +:+ d) = Some (name_of boundary <$> zip t t)) ∧
    (∀ d dr dc, (d, (dr, dc)) ∈ diagonals →
       ∃ t, target_coords dr dc md = Ok t ∧
            md' !! ("filename_" +:+ d) = Some (name_of boundary <$> zip t t)).
Proof.
  unfold _process_boundary_connections. intros H.
  apply bind_ok in H as (boundary & Hb & H).
  apply bind_ok in H as (md3 & Hmd3 & H).
  destruct (directional_loop _ _ _ _ Hmd3 directions_NoDup) as [Hframe3 Hdirs].
  destruct (diagonal_loop _ _ _ _ H diagonals_NoDup) as [Hframe' Hdiags].
  exists boundary. split; [done|]. split.
  - intros d dr dc Hin. destruct (Hdirs d dr dc Hin) as (t & Ht & Hl & Hf).
    exists t. split; [done|]. rewrite !Hframe'; [done|..].
    + intros d' Hd' Heq%filename_key_inj. subst d'.
      key_cases Hin; key_cases Hd'; congruence.
    + intros d' Hd'. apply link_key_not_filename.
  - intros d dr dc Hin. destruct (Hdiags d dr dc Hin) as (t & Ht & Hf).
    exists t. split; [|done]. rewrite <- Ht. symmetry.
    apply target_coords_congr; apply Hframe3; intros d' _; split; discriminate.
Qed.

Lemma any_direction (d : string) :
  d ∈ ["N"; "S"; "E"; "W"; "WN"; "EN"; "WS"; "ES"] →
  ∃ dr dc, (d, (dr, dc)) ∈ directions ∨ (d, (dr, dc)) ∈ diagonals.
Proof.
  intros Hd. key_cases Hd; subst d; eexists _, _;
    unfold directions, diagonals; rewrite !elem_of_cons;
    first [left; tauto | right; tauto].
Qed.

Lemma connection_names (bd md md' : Dict) (d : string) :
  _process_boundary_connections bd md = Ok md' →
  d ∈ ["N"; "S"; "E"; "W"; "WN"; "EN"; "WS"; "ES"] →
  ∃ boundary t, _get_boundary_coordinates bd = Ok boundary ∧
    md' !! ("filename_" +:+ d) = Some (name_of boundary <$> zip t t) ∧
    (d ∈ ["N"; "S"; "E"; "W"] →
     md' !! ("Link_" +:+ d) = Some (link_of boundary <$> t)) ∧
    ∀ bd' md'', _process_boundary_connections bd' md = Ok md'' →
      ∃ boundary', _get_boundary_coordinates bd' = Ok boundary' ∧
        md'' !! ("filename_" +:+ d) = Some (name_of boundary' <$> zip t t) ∧
        (d ∈ ["N"; "S"; "E"; "W"] →
         md'' !! ("Link_" +:+ d) = Some (link_of boundary' <$> t)).
Proof.
  intros H Hd.
  destruct (boundary_connections_fields _ _ _ H) as (b & Hb & Hdirs & Hdiags).
  destruct (any_direction d Hd) as (dr & dc & [Hin|Hin]).
  - destruct (Hdirs d dr dc Hin) as (t & Ht & Hl & Hf).
    exists b, t. split; [done|]. split; [done|]. split; [done|].
    intros bd' md'' H'.
    destruct (boundary_connections_fields _ _ _ H') as (b' & Hb' & Hdirs' & _).
    destruct (Hdirs' d dr dc Hin) as (t' & Ht' & Hl' & Hf').
    rewrite Ht in Ht'. injection Ht' as <-. exists b'. done.
  - destruct (Hdiags d dr dc Hin) as (t & Ht & Hf).
    assert (Hnot : d ∉ ["N"; "S"; "E"; "W"]).
    { intros Hc. key_cases Hin; key_cases Hc; congruence. }
    exists b, t. split; [done|]. split; [done|]. split; [done|].
    intros bd' md'' H'.
    destruct (boundary_connections_fields _ _ _ H') as (b' & Hb' & _ & Hdiags').
    destruct (Hdiags' d dr dc Hin) as (t' & Ht' & Hf').
    rewrite Ht in Ht'. injection Ht' as <-. exists b'. done.
Qed.

(** X8.  With an empty boundary index, every link status the two adjacency
    passes write is "自由边" and every neighbour file name is "无". *)
Theorem empty_boundary_all_free (bd md md' : Dict) (d : string) (i : nat)
    (v : string) :
  _get_boundary_coordinates bd = Ok ∅ →
  _process_boundary_connections bd md = Ok md' →
  (d ∈ ["N"; "S"; "E"; "W"] →
   field md' ("Link_" +:+ d) i = Some v → v = FREE_EDGE) ∧
  (d ∈ ["N"; "S"; "E"; "W"; "WN"; "EN"; "WS"; "ES"] →
   field md' ("filename_" +:+ d) i = Some v → v = NONE_NAME).
Proof.
  intros Hb H. split.
  - intros Hd.
    assert (Hd' : d ∈ ["N"; "S"; "E"; "W"; "WN"; "EN"; "WS"; "ES"]).
    { rewrite !elem_of_cons in *. tauto. }
    destruct (connection_names _ _ _ d H Hd') as (b & t & Hb' & _ & Hl & _).
    rewrite Hb in Hb'. injection Hb' as <-.
    unfold field. rewrite (Hl Hd). simpl. rewrite list_lookup_fmap.
    destruct (t !! i); simpl; [|discriminate]. by intros [= <-].
  - intros Hd.
    destruct (connection_names _ _ _ d H Hd) as (b & t & Hb' & Hf & _).
    rewrite Hb in Hb'. injection Hb' as <-.
    unfold field. rewrite Hf. simpl. rewrite names_lookup.
    destruct (t !! i); simpl; [|discriminate]. by intros [= <-].
Qed.

(** X9.  With a larger boundary index, a tile's connected edges stay
    connected and its neighbour file names, where it had any, stay the
    same. *)
Theorem larger_boundary_keeps_links (bd1 bd2 md md1 md2 : Dict)
    (b1 b2 : Boundary) (d : string) (i : nat) :
  _get_boundary_coordinates bd1 = Ok b1 →
  _get_boundary_coordinates bd2 = Ok b2 →
  b1 ⊆ b2 →
  _process_boundary_connections bd1 md = Ok md1 →
  _process_boundary_connections bd2 md = Ok md2 →
  (d ∈ ["N"; "S"; "E"; "W"] →
   field md1 ("Link_" +:+ d) i = Some LINKED →
   field md2 ("Link_" +:+ d) i = Some LINKED) ∧
  (d ∈ ["N"; "S"; "E"; "W"; "WN"; "EN"; "WS"; "ES"] →
   ∀ name, field md1 ("filename_" +:+ d) i = Some name → name ≠ NONE_NAME →
   field md2 ("filename_" +:+ d) i = Some name).
Proof.
  intros Hb1 Hb2 Hsub H1 H2.
  assert (Hall : d ∈ ["N"; "S"; "E"; "W"; "WN"; "EN"; "WS"; "ES"] →
    ∃ t, md1 !! ("filename_" +:+ d) = Some (name_of b1 <$> zip t t) ∧
         md2 !! ("filename_" +:+ d) = Some (name_of b2 <$> zip t t) ∧
         (d ∈ ["N"; "S"; "E"; "W"] →
          md1 !! ("Link_" +:+ d) = Some (link_of b1 <$> t) ∧
          md2 !! ("Link_" +:+ d) = Some (link_of b2 <$> t))).
  { intros Hd.
    destruct (connection_names _ _ _ d H1 Hd) as (b & t & Hb & Hf & Hl & Hother).
    rewrite Hb1 in Hb. injection Hb as <-.
    destruct (Hother _ _ H2) as (b' & Hb' & Hf' & Hl').
    rewrite Hb2 in Hb'. injection Hb' as <-. exists t. auto. }
  split.
  - intros Hd.
    destruct Hall as (t & _ & _ & Hl); [rewrite !elem_of_cons in *; tauto|].
    destruct (Hl Hd) as [Hl1 Hl2].
    unfold field. rewrite Hl1, Hl2. simpl. rewrite !list_lookup_fmap.
    destruct (t !! i) as [p|]; simpl; [|done]. unfold link_of.
    case_bool_decide as Hp; [|by intros [= ?%eq_sym%linked_not_free]].
    intros _. rewrite bool_decide_true; [done|]. by apply Hsub.
  - intros Hd name. destruct (Hall Hd) as (t & Hf1 & Hf2 & _).
    unfold field. rewrite Hf1, Hf2. simpl. rewrite !names_lookup.
    destruct (t !! i) as [p|]; simpl; [|done].
    case_bool_decide as Hp; [|by intros [= <-]].
    intros [= <-] _. rewrite bool_decide_true; [done|]. by apply Hsub.
Qed.

(** ** Cell addresses *)

Lemma upper_facts (c : ascii) :
  is_alpha (upper c) = is_alpha c ∧
  PyStr.is_digit (upper c) = PyStr.is_digit c ∧
  upper (upper c) = upper c ∧
  (is_alpha c = false → upper c = c).
Proof. destruct c as [[] [] [] [] [] [] [] []]; vm_compute; repeat split; done. Qed.

Lemma filter_alpha_upper (s : string) :
  filter_chars is_alpha (PyStr.map_chars upper s) =
  PyStr.map_chars upper (filter_chars is_alpha s).
Proof.
  induction s as [|c s IH]; simpl; [done|].
  destruct (upper_facts c) as (-> & _). destruct (is_alpha c); simpl; by rewrite IH.
Qed.

Lemma filter_digit_upper (s : string) :
  filter_chars PyStr.is_digit (PyStr.map_chars upper s) =
  filter_chars PyStr.is_digit s.
Proof.
  induction s as [|c s IH]; simpl; [done|].
  destruct (upper_facts c) as (_ & -> & _ & Hid).
  destruct (PyStr.is_digit c) eqn:Hd; [|done].
  rewrite IH, Hid; [done|].
  destruct c as [[] [] [] [] [] [] [] []]; vm_compute in Hd |- *; congruence.
Qed.

Lemma col_value_upper (acc : Z) (s : string) :
  col_value acc (PyStr.map_chars upper s) = col_value acc s.
Proof.
  revert acc. induction s as [|c s IH]; intros acc; simpl; [done|].
  destruct (upper_facts c) as (_ & _ & -> & _). apply IH.
Qed.

(** X10.  [_cell_address_to_indices] does not depend on the case of the
    letters of the address. *)
Theorem cell_address_case_insensitive (cell_address : string) :
  _cell_address_to_indices (PyStr.map_chars upper cell_address) =
  _cell_address_to_indices cell_address.
Proof.
  unfold _cell_address_to_indices.
  by rewrite filter_digit_upper, filter_alpha_upper, col_value_upper.
Qed.

Lemma filter_chars_all (p : ascii → bool) (s : string) :
  all_chars p s = true → filter_chars p s = s.
Proof.
  induction s as [|c s IH]; simpl; [done|].
  intros [-> Hs]%andb_true_iff. by rewrite IH.
Qed.

Lemma filter_chars_none (p : ascii → bool) (s : string) :
  all_chars (λ c, negb (p c)) s = true → filter_chars p s = "".
Proof.
  induction s as [|c s IH]; simpl; [done|].
  intros [Hc%negb_true_iff Hs]%andb_true_iff. by rewrite Hc, IH.
Qed.

Lemma filter_chars_app (p : ascii → bool) (s t : string) :
  filter_chars p (s +:+ t) = filter_chars p s +:+ filter_chars p t.
Proof.
  induction s as [|c s IH]; simpl; [done|]. destruct (p c); simpl; by rewrite IH.
Qed.

Lemma all_chars_impl (p q : ascii → bool) (s : string) :
  (∀ c, p c = true → q c = true) → all_chars p s = true → all_chars q s = true.
Proof.
  intros Hpq. induction s as [|c s IH]; simpl; [done|].
  intros [Hc Hs]%andb_true_iff. by rewrite (Hpq c Hc), IH.
Qed.

Lemma alpha_not_digit (c : ascii) :
  (is_alpha c = true → negb (PyStr.is_digit c) = true) ∧
  (PyStr.is_digit c = true → negb (is_alpha c) = true) ∧
  (is_upper c = true → is_alpha c = true).
Proof. destruct c as [[] [] [] [] [] [] [] []]; vm_compute; repeat split; done. Qed.

Lemma string_app_empty_r (s : string) : s +:+ "" = s.
Proof.
  induction s as [|c s IH]; [done|].
  change (String c (s +:+ "") = String c s). by rewrite IH.
Qed.

Lemma cell_address_letters_digits (col row : string) :
  all_chars is_alpha col = true →
  all_chars PyStr.is_digit row = true →
  _cell_address_to_indices (col +:+ row) =
  let! row_num := py_int row in Ok (row_num - 1, col_value 0 col - 1)%Z.
Proof.
  intros Hcol Hrow. unfold _cell_address_to_indices.
  rewrite !filter_chars_app.
  rewrite (filter_chars_all is_alpha col Hcol).
  rewrite (filter_chars_none is_alpha row)
    by (eapply all_chars_impl; [apply alpha_not_digit|done]).
  rewrite (filter_chars_none PyStr.is_digit col)
    by (eapply all_chars_impl; [apply alpha_not_digit|done]).
  rewrite (filter_chars_all PyStr.is_digit row Hrow).
  by rewrite string_app_empty_r.
Qed.

Lemma col_value_fold (acc : Z) (s : string) :
  col_value acc s =
  fold_left (λ a c, a * 26 + letter_value c)%Z (list_ascii_of_string s) acc.
Proof. revert acc. induction s as [|c s IH]; intros acc; simpl; [done|]. apply IH. Qed.

Lemma upper_letter_value (c : ascii) :
  is_upper c = true → (1 ≤ letter_value c ≤ 26)%Z ∧
  Z.of_nat (PyStr.code c) = (letter_value c + 64)%Z.
Proof.
  destruct c as [[] [] [] [] [] [] [] []]; vm_compute; try discriminate;
    intros _; repeat split; done.
Qed.

Lemma letters_value_nonneg (l : list ascii) (acc : Z) :
  Forall (λ c, is_upper c = true) l → (0 ≤ acc)%Z →
  (0 ≤ fold_left (λ a c, a * 26 + letter_value c) l acc)%Z.
Proof.
  intros Hl. revert acc. induction Hl as [|c l Hc _ IH]; intros acc Hacc; simpl;
    [done|].
  apply IH. destruct (upper_letter_value c Hc). lia.
Qed.

Lemma letters_value_inj (l l' : list ascii) :
  Forall (λ c, is_upper c = true) l → Forall (λ c, is_upper c = true) l' →
  fold_left (λ a c, a * 26 + letter_value c)%Z l 0%Z =
  fold_left (λ a c, a * 26 + letter_value c)%Z l' 0%Z →
  l = l'.
Proof.
  revert l'. induction l as [|c l IH] using rev_ind;
    intros l' Hl Hl'; destruct l' as [|c' l' _] using rev_ind; try done.
  - rewrite fold_left_app. simpl. intros H.
    apply Forall_app in Hl' as [Hl' Hc']. rewrite Forall_singleton in Hc'.
    pose proof (letters_value_nonneg l' 0 Hl' ltac:(done)).
    destruct (upper_letter_value c' Hc'). lia.
  - rewrite fold_left_app. simpl. intros H.
    apply Forall_app in Hl as [Hl Hc]. rewrite Forall_singleton in Hc.
    pose proof (letters_value_nonneg l 0 Hl ltac:(done)).
    destruct (upper_letter_value c Hc). lia.
  - rewrite !fold_left_app. simpl. intros H.
    apply Forall_app in Hl as [Hl Hc]. rewrite Forall_singleton in Hc.
    apply Forall_app in Hl' as [Hl' Hc']. rewrite Forall_singleton in Hc'.
    destruct (upper_letter_value c Hc) as [Hb Hcode].
    destruct (upper_letter_value c' Hc') as [Hb' Hcode'].
    assert (letter_value c = letter_value c') as Hv by lia.
    assert (c = c') as ->.
    { rewrite <- (ascii_nat_embedding c), <- (ascii_nat_embedding c').
      f_equal. unfold PyStr.code in *. lia. }
    f_equal. apply IH; [done..|lia].
Qed.

Lemma all_chars_Forall (p : ascii → bool) (s : string) :
  all_chars p s = true → Forall (λ c, p c = true) (list_ascii_of_string s).
Proof.
  induction s as [|c s IH]; simpl; [constructor|].
  intros [Hc Hs]%andb_true_iff. constructor; auto.
Qed.

Lemma col_value_inj (u v : string) :
  all_chars is_upper u = true → all_chars is_upper v = true →
  col_value 0 u = col_value 0 v → u = v.
Proof.
  intros Hu Hv H. rewrite !col_value_fold in H.
  apply letters_value_inj in H; [|by apply all_chars_Forall..].
  rewrite <- (string_of_list_ascii_of_string u), H.
  apply string_of_list_ascii_of_string.
Qed.

(** X11.  On addresses made of capital letters followed by digits,
    [_cell_address_to_indices] gives the row number less one and the column
    number less one, and two addresses with the same indices have the same
    column letters and the same row number. *)
Theorem cell_address_injective (col col' row row' : string) (rc : Z * Z) :
  all_chars is_upper col = true → all_chars PyStr.is_digit row = true →
  all_chars is_upper col' = true → all_chars PyStr.is_digit row' = true →
  _cell_address_to_indices (col +:+ row) = Ok rc →
  _cell_address_to_indices (col' +:+ row') = Ok rc →
  col = col' ∧ PyStr.int row = PyStr.int row' ∧
  PyStr.int row = Some (rc.1 + 1)%Z ∧ rc.2 = (col_value 0 col - 1)%Z.
Proof.
  intros Hc Hr Hc' Hr'.
  rewrite !cell_address_letters_digits
    by first [done | eapply all_chars_impl; [apply alpha_not_digit|done]].
  unfold py_int.
  destruct (PyStr.int row) as [n|]; [|discriminate].
  destruct (PyStr.int row') as [n'|]; [|discriminate]. simpl.
  intros [= <-]. intros [= Hn Hcol]. simpl.
  split; [apply col_value_inj; [done..|lia]|].
  split; [f_equal; lia|]. split; [f_equal; lia|done].
Qed.

(** ** The writer of .xls sheets *)

Section xls_writer.
Context (data : gmap string string) (idx : string → Z * Z).

Lemma xls_loop (l : list (string * string)) (ws : gmap (Z * Z) string) :
  Forall (λ fc, _cell_address_to_indices fc.2 = Ok (idx fc.2)) l →
  NoDup (idx <$> l.*2) →
  ∃ ws',
    foldM (λ ws fc, match data !! fc.1 with
                    | Some v => let! rc := _cell_address_to_indices fc.2 in
                                Ok (<[rc := v]> ws)
                    | None => Ok ws
                    end) ws l = Ok ws' ∧
    (∀ rc, rc ∉ idx <$> l.*2 → ws' !! rc = ws !! rc) ∧
    (∀ fld cell, (fld, cell) ∈ l →
       ws' !! idx cell =
       match data !! fld with Some v => Some v | None => ws !! idx cell end).
Proof.
  intros Hidx. revert ws. induction Hidx as [|[f c] l Hc _ IH]; intros ws Hnd.
  - exists ws. split; [done|]. split; [done|]. intros ?? Hin.
    by apply elem_of_nil in Hin.
  - csimpl in Hnd. apply NoDup_cons in Hnd as [Hfresh Hnd]. simpl in Hc.
    csimpl.
    destruct (data !! f) as [v|] eqn:Hf.
    + rewrite Hc. simpl.
      destruct (IH (<[idx c := v]> ws) Hnd) as (ws' & Hws' & Hother & Hmapped).
      exists ws'. split; [done|]. split.
      * intros rc [Hne Hrc]%not_elem_of_cons.
        rewrite Hother by done. by rewrite lookup_insert_ne.
      * intros fld cell [[= -> ->]|Hin]%elem_of_cons.
        -- rewrite Hother by done. by rewrite Hf, lookup_insert_eq.
        -- rewrite (Hmapped _ _ Hin). destruct (data !! fld); [done|].
           apply lookup_insert_ne. intros Heq. apply Hfresh. rewrite Heq.
           apply list_elem_of_fmap. exists cell. split; [done|].
           apply list_elem_of_fmap. by exists (fld, cell).
    + destruct (IH ws Hnd) as (ws' & Hws' & Hother & Hmapped).
      exists ws'. split; [done|]. split.
      * intros rc [Hne Hrc]%not_elem_of_cons. by apply Hother.
      * intros fld cell [[= -> ->]|Hin]%elem_of_cons.
        -- rewrite Hf. by apply Hother.
        -- by apply Hmapped.
Qed.
End xls_writer.

Lemma mapping_indices_ok :
  Forall (λ fc, _cell_address_to_indices fc.2 = Ok (indices_of fc.2)) mapping.
Proof. repeat constructor. Qed.

Lemma mapping_indices_NoDup : NoDup (indices_of <$> mapping.*2).
Proof. apply (bool_decide_unpack _). by vm_compute. Qed.

(** X12.  The loop of [_write_xls] raises on no address of [mapping],
    leaves every other position of the sheet alone, and puts at the position
    of each address of [mapping] what the loop of [_write_xlsx] puts at that
    address, when the two sheets agreed there before. *)
Theorem xls_writer_agrees_with_xlsx (data : gmap string string)
    (ws : gmap (Z * Z) string) (template : Sheet) :
  ∃ ws',
    write_cells_xls data ws = Ok ws' ∧
    (∀ rc, rc ∉ indices_of <$> mapping.*2 → ws' !! rc = ws !! rc) ∧
    (∀ fld cell, (fld, cell) ∈ mapping →
       _cell_address_to_indices cell = Ok (indices_of cell) ∧
       (ws !! indices_of cell = template !! cell →
        ws' !! indices_of cell = write_cells data template !! cell)).
Proof.
  destruct (xls_loop data indices_of mapping ws
              mapping_indices_ok mapping_indices_NoDup)
    as (ws' & Hws' & Hother & Hmapped).
  exists ws'. split; [exact Hws'|]. split; [exact Hother|].
  intros fld cell Hin. split.
  - pose proof mapping_indices_ok as Hok.
    rewrite Forall_forall in Hok. apply (Hok (fld, cell) Hin).
  - intros Htpl. rewrite (Hmapped fld cell Hin).
    unfold write_cells.
    rewrite (write_step_mapped data mapping template fld cell
               mapping_cells_NoDup Hin).
    by rewrite Htpl.
Qed.

(** ** Failure and success of a batch *)

Lemma traverse_first_raise {A B} (f : A → result B) (l : list A) (i : nat)
    (x : A) (e : exn) :
  (∀ j y, j < i → l !! j = Some y → is_ok (f y) = true) →
  l !! i = Some x → f x = Raise e → traverse f l = Raise e.
Proof.
  revert i. induction l as [|a l IH]; intros [|i] Hbefore Hi Hx; simpl in *;
    try done.
  - injection Hi as ->. by rewrite Hx.
  - pose proof (Hbefore 0 a ltac:(lia) eq_refl) as Ha.
    destruct (f a) as [b|]; [|done]. simpl.
    rewrite (IH i); [done| |done..].
    intros j y Hj Hy. apply (Hbefore (S j) y); [lia|done].
Qed.


(** X13.  When the first four characters of some identifier of the target
    table do not read as an integer, [generate_metadata] ends with the
    [ValueError] of [int] on the first such slice, and the output directory
    is as it was. *)
Theorem non_integer_row_aborts (probe : string → option string) (tpl : Sheet)
    (boundary_file target_file : DataFrame) (suffix : string)
    (p : MetadataProcessor) (ids : list string) (i : nat) (s : string)
    (out : OutDir) :
  load_data tpl boundary_file target_file suffix = Ok p →
  target_file !! "MapIndex" = Some ids →
  ids !! i = Some s →
  PyStr.int (PyStr.slice 0 4 s) = None →
  (∀ j s', j < i → ids !! j = Some s' →
     is_Some (PyStr.int (PyStr.slice 0 4 s'))) →
  generate_metadata probe p out =
  (out, Raise (InvalidLiteral (PyStr.slice 0 4 s))).
Proof.
  intros Hload Hids Hi Hbad Hbefore.
  apply load_data_ok in Hload as [_ Hm].
  apply extract_metadata_ok in Hm
    as (ids' & bands & mer & times & Hids' & _ & _ & _ & Hmd0).
  rewrite Hids in Hids'. injection Hids' as <-.
  unfold generate_metadata, derive. rewrite Hmd0.
  unfold _add_tif_sizes, getitem. rewrite lookup_insert_eq. simpl.
  unfold _generate_coordinates, getitem.
  rewrite !lookup_insert_ne by done. rewrite lookup_insert_eq. simpl.
  rewrite (traverse_first_raise py_int (PyStr.slice 0 4 <$> ids) i
             (PyStr.slice 0 4 s) (InvalidLiteral (PyStr.slice 0 4 s))); [done|..].
  - intros j y Hj Hy. rewrite list_lookup_fmap in Hy.
    destruct (ids !! j) as [s'|] eqn:Hs'; [|discriminate]. injection Hy as <-.
    destruct (Hbefore j s' Hj Hs') as [n Hn]. unfold py_int. by rewrite Hn.
  - by rewrite list_lookup_fmap, Hi.
  - unfold py_int. by rewrite Hbad.
Qed.



Lemma generate_single_file_result (tpl : Sheet) (fmt : string) (md : Dict)
    (i : nat) (s : string) (out out' : OutDir) (r : result unit) :
  _generate_single_file tpl fmt md i s out = (out', r) →
  match r with
  | Ok _ => out' = <[output_name fmt s := sheet_of tpl md i]> out
  | Raise _ => out' = <[output_name fmt s := tpl]> out
  end.
Proof.
  unfold _generate_single_file, current_data, sheet_of.
  fold (output_name fmt s).
  case_bool_decide; [|by intros [= <- <-]].
  case_bool_decide; intros [= <- <-]; [|done].
  by rewrite insert_insert_eq.
Qed.

(** X15.  The emission loop stops at the first sheet that fails: the sheets
    of the tiles before it are written, and the file of the failing tile is
    left as a copy of the template. *)
Theorem emit_result (tpl : Sheet) (fmt : string) (md : Dict)
    (items : list (nat * string)) (out out' : OutDir) (r : result unit) :
  emit tpl fmt md items out = (out', r) →
  match r with
  | Ok _ => out' = written tpl fmt md items out
  | Raise _ =>
      ∃ k it, items !! k = Some it ∧
        out' = <[output_name fmt it.2 := tpl]>
                 (written tpl fmt md (take k items) out)
  end.
Proof.
  revert out. induction items as [|[i s] items IH]; intros out; simpl.
  - by intros [= <- <-].
  - destruct (_generate_single_file tpl fmt md i s out) as [out1 [[]|e]] eqn:Hone;
      apply generate_single_file_result in Hone; subst out1.
    + intros Hrest. specialize (IH _ Hrest). destruct r as [[]|e]; [done|].
      destruct IH as (k & it & Hk & ->). by exists (S k), it.
    + intros [= <- <-]. by exists 0, (i, s).
Qed.



(** ** The further properties at sample inputs *)

Lemma derived_validation_iff_distinct_witness :
  let ids := ["0012XXX00051"; "0012XXX00050"] in
  let md := from_ok (derive no_tifs sample_processor) in
  uniform (length ids) md ∧
  (_validate_data_consistency md = Ok () ↔ NoDup ids) ∧
  (¬ NoDup ids →
   _validate_data_consistency md = Raise (ValueError DUPLICATE_NAMES)).
Proof.
  intros ids md.
  apply (derived_validation_iff_distinct no_tifs ∅ sample_boundary_file
           sample_target_file ".xlsx" sample_processor ids ["t1"; "t2"] md);
    reflexivity.
Defined.

Lemma derive_adds_fields_witness :
  let md := from_ok (derive no_tifs sample_processor) in
  dom md = dom (metadata_data sample_processor) ∪ list_to_set derived_keys ∧
  ∀ k, k ∉ derived_keys → md !! k = metadata_data sample_processor !! k.
Proof.
  intros md. apply (derive_adds_fields no_tifs sample_processor md).
  reflexivity.
Defined.


Lemma generate_filename_inj_witness : (13 = 13 ∧ 51 = 51)%Z.
Proof. apply (generate_filename_inj 13 51 13 51). reflexivity. Defined.

Lemma empty_boundary_all_free_witness :
  let bd := from_ok (_process_excel (table [] [])) in
  let md' := from_ok (_process_boundary_connections bd (grid ["0012"] ["00051"])) in
  (("N" : string) ∈ ["N"; "S"; "E"; "W"] →
   field md' "Link_N" 0 = Some FREE_EDGE → FREE_EDGE = FREE_EDGE) ∧
  (("N" : string) ∈ ["N"; "S"; "E"; "W"; "WN"; "EN"; "WS"; "ES"] →
   field md' "filename_N" 0 = Some FREE_EDGE → FREE_EDGE = NONE_NAME).
Proof.
  intros bd md'.
  apply (empty_boundary_all_free bd (grid ["0012"] ["00051"]) md' "N" 0 FREE_EDGE);
    reflexivity.
Defined.

Lemma larger_boundary_keeps_links_witness :
  let md := grid ["0012"] ["00051"] in
  let md1 := from_ok (_process_boundary_connections (grid ["0013"] ["00051"]) md) in
  let md2 := from_ok (_process_boundary_connections
                        (grid ["0013"; "0013"] ["00051"; "00050"]) md) in
  (("N" : string) ∈ ["N"; "S"; "E"; "W"] →
   field md1 "Link_N" 0 = Some LINKED → field md2 "Link_N" 0 = Some LINKED) ∧
  (("N" : string) ∈ ["N"; "S"; "E"; "W"; "WN"; "EN"; "WS"; "ES"] →
   ∀ name, field md1 "filename_N" 0 = Some name → name ≠ NONE_NAME →
   field md2 "filename_N" 0 = Some name).
Proof.
  intros md md1 md2.
  apply (larger_boundary_keeps_links (grid ["0013"] ["00051"])
           (grid ["0013"; "0013"] ["00051"; "00050"]) md md1 md2
           {[ (13, 51)%Z ]} (list_to_set [(13, 51); (13, 50)]%Z) "N" 0);
    try reflexivity.
  intros x Hx%elem_of_singleton. subst x.
  apply elem_of_list_to_set, list_elem_of_here.
Defined.

Lemma cell_address_injective_witness :
  ("C" : string) = "C" ∧ PyStr.int "8" = PyStr.int "08" ∧
  PyStr.int "8" = Some (7 + 1)%Z ∧ 2%Z = (col_value 0 "C" - 1)%Z.
Proof.
  apply (cell_address_injective "C" "C" "8" "08" (7, 2)%Z); reflexivity.
Defined.

Lemma non_integer_row_aborts_witness :
  generate_metadata no_tifs
    {| template := ∅;
       boundary_data := from_ok (_process_excel sample_boundary_file);
       metadata_data := from_ok (_process_excel (table ["A001XXX00051"] ["t1"]));
       output_format := ".xlsx" |} ∅ =
  (∅, Raise (InvalidLiteral "A001")).
Proof.
  apply (non_integer_row_aborts no_tifs ∅ sample_boundary_file
           (table ["A001XXX00051"] ["t1"]) ".xlsx" _ ["A001XXX00051"] 0
           "A001XXX00051" ∅); try reflexivity.
  intros j s' Hj. lia.
Defined.


Lemma emit_result_witness :
  let md := grid ["0012"] ["00051"] in
  let items := [(0, "a"); (1, "b"); (0, "c")] in
  ∃ k it, items !! k = Some it ∧
    (emit ∅ ".xlsx" md items ∅).1 =
    <[output_name ".xlsx" it.2 := ∅]> (written ∅ ".xlsx" md (take k items) ∅).
Proof.
  intros md items.
  apply (emit_result ∅ ".xlsx" md items ∅ (emit ∅ ".xlsx" md items ∅).1
           (Raise IndexError)).
  reflexivity.
Defined.

